(** * ibkr_client: the Flask backend (backend/app.py) and its CLI driver
    (backend/cli_driver.py), embedded shallowly.

    The backend keeps one process-wide dictionary [SESSIONS] from session
    tokens to the username value given at login.  Two routes exist:
    [POST /api/login] and [GET /api/portfolio].  The CLI performs one HTTP
    call per sub-command and turns the response into a process outcome. *)

From Stdlib Require Import ZArith NArith Floats.SpecFloat.
From Stdlib Require Import Strings.Byte Strings.Ascii.
From stdpp Require Import gmap strings list fin_maps pretty.

Set Warnings "-register-all,-clear-no-such-hyp".
Local Open Scope string_scope.

(** ** Python values *)

(** The values [request.get_json] can return: Python's image of a JSON
    document.  [JNull] is Python's [None]; an [int] is unbounded; a [float]
    is an IEEE-754 double, kept as the [spec_float] it parsed to; a [dict]
    decoded from JSON has string keys. *)
Inductive json : Type :=
  | JNull
  | JBool (b : bool)
  | JInt (z : Z)
  | JFloat (f : spec_float)
  | JStr (s : string)
  | JArr (l : list json)
  | JObj (m : gmap string json).

(** Python's truth-value protocol ([__bool__] / [__len__]). *)
Class Truthy (A : Type) := truthy : A -> bool.

#[export] Instance string_truthy : Truthy string :=
  fun s => match s with EmptyString => false | String _ _ => true end.

#[export] Instance option_truthy {A} `{Truthy A} : Truthy (option A) :=
  fun o => match o with None => false | Some x => truthy x end.

Definition float_truthy (f : spec_float) : bool :=
  match f with S754_zero _ => false | _ => true end.

#[export] Instance json_truthy : Truthy json :=
  fun v =>
    match v with
    | JNull => false
    | JBool b => b
    | JInt z => negb (z =? 0)%Z
    | JFloat f => float_truthy f
    | JStr s => truthy s
    | JArr l => negb (length l =? 0)%nat
    | JObj m => negb (size m =? 0)%nat
    end.

(** [x and y] and [x or y]: the operand that decided the result. *)
Definition py_and {A} `{Truthy A} (x y : A) : A := if truthy x then y else x.
Definition py_or {A} `{Truthy A} (x y : A) : A := if truthy x then x else y.

(** A [float] literal of the source, [digits / 10^scale] rounded to the
    nearest double (both operands of the division are exact doubles). *)
Definition py_float (digits : Z) (scale : Z) : spec_float :=
  SFdiv 53 1024 (binary_normalize 53 1024 digits 0 false)
                (binary_normalize 53 1024 (10 ^ scale) 0 false).

(** ** Python string methods used by the source *)

Module PyStr.

(** [str.isspace] on one character.  WSGI header values are latin-1
    strings, so a character is a code point below 256. *)
Definition isspace (c : ascii) : bool :=
  let n := N_of_ascii c in
  ((9 <=? n) && (n <=? 13) || (28 <=? n) && (n <=? 32)
   || (n =? 133) || (n =? 160))%N.

Fixpoint strip_prefix (p s : string) : option string :=
  match p, s with
  | EmptyString, _ => Some s
  | String a p', String b s' =>
      if Ascii.eqb a b then strip_prefix p' s' else None
  | String _ _, EmptyString => None
  end.

(** [s.removeprefix(p)] *)
Definition removeprefix (p s : string) : string :=
  default s (strip_prefix p s).

(** [s.lstrip()] *)
Fixpoint lstrip (s : string) : string :=
  match s with
  | EmptyString => EmptyString
  | String c s' => if isspace c then lstrip s' else s
  end.

(** [s.rstrip()] *)
Fixpoint rstrip (s : string) : string :=
  match s with
  | EmptyString => EmptyString
  | String c s' =>
      match rstrip s' with
      | EmptyString => if isspace c then EmptyString else String c EmptyString
      | r => String c r
      end
  end.

(** [s.strip()] *)
Definition strip (s : string) : string := rstrip (lstrip s).

(** [s.rstrip(chars)] for a one-character [chars]. *)
Fixpoint rstrip_char (x : ascii) (s : string) : string :=
  match s with
  | EmptyString => EmptyString
  | String c s' =>
      match rstrip_char x s' with
      | EmptyString => if Ascii.eqb c x then EmptyString else String c EmptyString
      | r => String c r
      end
  end.

End PyStr.

(** ** [secrets.token_hex] *)

Module Secrets.

(** The operating system's entropy source, as the unbounded sequence of
    bytes it will deliver. *)
Definition entropy := nat -> byte.

Definition hex_digit (n : N) : ascii :=
  default "0"%char (String.get (N.to_nat n) "0123456789abcdef").

Definition hex_byte (b : byte) : string :=
  let n := Byte.to_N b in
  String (hex_digit (n / 16)) (String (hex_digit (n mod 16)) EmptyString).

(** [bytes.hex()] *)
Fixpoint hex (bs : list byte) : string :=
  match bs with
  | [] => EmptyString
  | b :: rest => hex_byte b +:+ hex rest
  end.

(** [secrets.token_bytes(nbytes)]: the next [nbytes] bytes of the source. *)
Definition token_bytes (nbytes : nat) (src : entropy) : list byte * entropy :=
  (map src (seq 0 nbytes), fun i => src (nbytes + i)%nat).

(** [secrets.token_hex(nbytes)] *)
Definition token_hex (nbytes : nat) (src : entropy) : string * entropy :=
  let '(bs, src') := token_bytes nbytes src in (hex bs, src').

Definition is_hexdigit (c : ascii) : bool :=
  let n := N_of_ascii c in
  ((48 <=? n) && (n <=? 57) || (97 <=? n) && (n <=? 102))%N.

Fixpoint all_hex (s : string) : bool :=
  match s with
  | EmptyString => true
  | String c s' => is_hexdigit c && all_hex s'
  end.

End Secrets.

(** ** backend/app.py *)

Module App.

(** *** Requests and responses, as Flask presents them to a view *)

(** The request body as [request.get_json] sees it.  A body sent without a
    JSON content type is not decoded either and counts as [NotJson]. *)
Inductive payload : Type :=
  | NoBody                      (* nothing was sent *)
  | NotJson (raw : string)      (* bytes that do not decode as JSON *)
  | Json (v : json).            (* a document, already decoded *)

Record request : Type := {
  req_body : payload;
  cookies : gmap string string;
  headers : gmap string string
}.

Record cookie : Type := {
  ck_value : string;
  ck_httponly : bool;
  ck_samesite : string;
  ck_secure : bool;
  ck_max_age : Z
}.

(** A response: the status, the value handed to [jsonify] and the cookies
    set on it.  [jsonify] serialises its argument deterministically, so the
    bytes on the wire are a function of [body]. *)
Record response : Type := {
  status : Z;
  body : json;
  set_cookies : gmap string cookie
}.

Inductive exception : Type :=
  | AttributeError.

(** What a view function does: return a response, or raise (Flask answers
    an exception that nothing handles with status 500). *)
Inductive outcome : Type :=
  | Responded (r : response)
  | Raised (e : exception).

Definition status_of (o : outcome) : Z :=
  match o with
  | Responded r => status r
  | Raised _ => 500
  end.

(** [jsonify(v), code] *)
Definition jsonify (v : json) (code : Z) : response :=
  {| status := code; body := v; set_cookies := ∅ |}.

(** [resp.set_cookie(key, value, ...)] *)
Definition set_cookie (resp : response) (key : string) (c : cookie) : response :=
  {| status := status resp; body := body resp;
     set_cookies := <[key := c]> (set_cookies resp) |}.

(** [request.get_json(silent=True)]: [None] when there is no JSON to
    decode, else the decoded value. *)
Definition get_json_silent (rq : request) : json :=
  match req_body rq with
  | NoBody => JNull
  | NotJson _ => JNull
  | Json v => v
  end.

(** *** Process state *)

(** [SESSIONS] with the entropy [secrets] will draw from. *)
Record server : Type := {
  SESSIONS : gmap string json;
  urandom : Secrets.entropy
}.

(** The state at process start: [SESSIONS = {}]. *)
Definition start (src : Secrets.entropy) : server :=
  {| SESSIONS := ∅; urandom := src |}.

Definition SESSION_COOKIE : string := "ibkr_session".

(** *** The stubs *)

Definition mock_login (username password : json) : bool :=
  truthy (py_and username password).

Definition position (symbol : string) (quantity price pnl : json) : json :=
  JObj (<["symbol" := JStr symbol]> (<["quantity" := quantity]>
       (<["price" := price]> (<["pnl" := pnl]> ∅)))).

Definition positions : list json :=
  [ position "AAPL" (JInt 120) (JFloat (py_float 18742 2)) (JFloat (py_float 1416 1));
    position "MSFT" (JInt 80) (JFloat (py_float 42215 2)) (JFloat (SFopp (py_float 512 1)));
    position "DMSO" (JInt 800) (JFloat (py_float 100000 2)) (JInt 1000) ].

Definition mock_fetch_portfolio {A : Type} (_ : A) : json :=
  JObj (<["positions" := JArr positions]> (<["cash" := JInt 18250]> ∅)).

(** *** Session validation *)

(** [token in SESSIONS]; the keys are strings, so [None] is never one. *)
Definition validate_token (st : server) (token : option string) : bool :=
  match token with
  | None => false
  | Some t => bool_decide (t ∈ dom (SESSIONS st))
  end.

(** *** POST /api/login *)

Definition invalid_credentials : response :=
  jsonify (JObj {["error" := JStr "invalid credentials"]}) 401.

Definition login_ok (token : string) : response :=
  set_cookie
    (jsonify (JObj (<["ok" := JBool true]> (<["token" := JStr token]> ∅))) 200)
    SESSION_COOKIE
    {| ck_value := token; ck_httponly := true; ck_samesite := "Lax";
       ck_secure := false; ck_max_age := 60 * 60 * 4 |}.

(** [request.get_json(silent=True) or {}] *)
Definition login_data (rq : request) : json :=
  py_or (get_json_silent rq) (JObj ∅).

(** [d.get(key, "")] *)
Definition dict_get (d : gmap string json) (key : string) : json :=
  default (JStr "") (d !! key).

Definition login (st : server) (rq : request) : server * outcome :=
  match login_data rq with
  | JObj data =>
      let username := dict_get data "username" in
      let password := dict_get data "password" in
      if negb (mock_login username password) then
        (st, Responded invalid_credentials)
      else
        let '(token, src) := Secrets.token_hex 16 (urandom st) in
        ({| SESSIONS := <[token := username]> (SESSIONS st); urandom := src |},
         Responded (login_ok token))
  | _ => (st, Raised AttributeError)     (* no [get] on a non-dict *)
  end.

(** *** GET /api/portfolio *)

Definition unauthorized : response :=
  jsonify (JObj {["error" := JStr "unauthorized"]}) 401.

(** [request.headers.get("Authorization", "").removeprefix("Bearer ").strip()] *)
Definition bearer_token (rq : request) : string :=
  PyStr.strip (PyStr.removeprefix "Bearer " (default "" (headers rq !! "Authorization"))).

(** [request.cookies.get(SESSION_COOKIE) or <bearer token>] *)
Definition presented_token (rq : request) : option string :=
  py_or (cookies rq !! SESSION_COOKIE) (Some (bearer_token rq)).

Definition portfolio (st : server) (rq : request) : server * outcome :=
  let token := presented_token rq in
  if negb (validate_token st token) then
    (st, Responded unauthorized)
  else
    let data := mock_fetch_portfolio token in
    (st, Responded (jsonify data 200)).

(** *** The process: a sequence of requests served from [start] *)

Inductive http_request : Type :=
  | POST_api_login (rq : request)
  | GET_api_portfolio (rq : request).

Definition serve (st : server) (r : http_request) : server * outcome :=
  match r with
  | POST_api_login rq => login st rq
  | GET_api_portfolio rq => portfolio st rq
  end.

Fixpoint run (st : server) (trace : list http_request) : server * list outcome :=
  match trace with
  | [] => (st, [])
  | r :: rest =>
      let '(st1, o) := serve st r in
      let '(st2, os) := run st1 rest in
      (st2, o :: os)
  end.

(** The token a response to [POST /api/login] hands out, if any. *)
Definition token_of (o : outcome) : option string :=
  match o with
  | Responded r =>
      match body r with
      | JObj m => match m !! "token" with Some (JStr t) => Some t | _ => None end
      | _ => None
      end
  | Raised _ => None
  end.

(** The tokens one request hands out. *)
Definition handed_out (st : server) (r : http_request) : list string :=
  match r with
  | POST_api_login _ => option_list (token_of (serve st r).2)
  | GET_api_portfolio _ => []
  end.

(** All tokens [login] has returned along a trace. *)
Fixpoint issued (st : server) (trace : list http_request) : list string :=
  match trace with
  | [] => []
  | r :: rest => (handed_out st r ++ issued (serve st r).1 rest)%list
  end.

(** *** The session authority in the spec's words *)

Inductive verdict : Type :=
  | Authorized (username : json)
  | Unauthorized.

(** Follows the spec, not the source: "Returns Authorized iff the presented
    value is a key in the session map; otherwise Unauthorized", the
    username being the one the session record holds.  Compared with
    [validate_token] below. *)
Definition validate_spec (st : server) (presented : option string) : verdict :=
  match presented with
  | None => Unauthorized
  | Some t =>
      match SESSIONS st !! t with
      | Some u => Authorized u
      | None => Unauthorized
      end
  end.

End App.

(** ** backend/cli_driver.py *)

Module Cli.

(** What [requests] returns: the status and the raw body. *)
Record http_response : Type := {
  status_code : Z;
  text : string
}.

Inductive exception : Type :=
  | RequestException      (* no response could be obtained *)
  | JSONDecodeError       (* [resp.json()] on a body that is not JSON *)
  | AttributeError.       (* [.get] on a value that is not a dict *)

(** How the process ends.  [click.echo] writes its message and a newline;
    an exception nothing catches ends the interpreter with a traceback. *)
Inductive ending : Type :=
  | Exit0 (stdout : string)
  | SystemExit1 (stderr : string)
  | Uncaught (e : exception).

Definition exit_code (e : ending) : Z :=
  match e with
  | Exit0 _ => 0
  | SystemExit1 _ => 1
  | Uncaught _ => 1
  end.

Definition newline : string := String (ascii_of_nat 10) EmptyString.

Definition API_DEFAULT : string := "http://127.0.0.1:5000/api".

(** [cli]: [ctx.obj["API_BASE"] = api_base.rstrip("/")] *)
Definition cli (api_base : string) : string :=
  PyStr.rstrip_char "/"%char api_base.

Section Driver.

(** The libraries the driver calls. *)
Variable requests_post : string -> json -> option http_response.
Variable requests_get : string -> gmap string string -> option http_response.
Variable json_loads : string -> option json.      (* [resp.json()] *)
Variable json_dumps : json -> nat -> string.      (* [json.dumps(v, indent=n)] *)
Variable py_str : json -> string.                 (* [str(v)] *)

(** [click.echo(message)] for the value [dict.get] returned. *)
Definition echo (message : option json) : string :=
  match message with
  | None => EmptyString
  | Some JNull => EmptyString
  | Some (JStr s) => s
  | Some v => py_str v
  end +:+ newline.

(** The part of [login] after the response has arrived. *)
Definition login_report (resp : http_response) : ending :=
  if negb (status_code resp =? 200)%Z then
    SystemExit1 ("Login failed (" +:+ pretty (status_code resp) +:+ "): "
                 +:+ text resp +:+ newline)
  else
    match json_loads (text resp) with
    | None => Uncaught JSONDecodeError
    | Some (JObj d) => Exit0 (echo (d !! "token"))
    | Some _ => Uncaught AttributeError
    end.

Definition login (api_base user password : string) : ending :=
  match requests_post (api_base +:+ "/login")
          (JObj (<["username" := JStr user]> (<["password" := JStr password]> ∅))) with
  | None => Uncaught RequestException
  | Some resp => login_report resp
  end.

(** The part of [portfolio] after the response has arrived. *)
Definition portfolio_report (resp : http_response) : ending :=
  if negb (status_code resp =? 200)%Z then
    SystemExit1 ("Request failed (" +:+ pretty (status_code resp) +:+ "): "
                 +:+ text resp +:+ newline)
  else
    match json_loads (text resp) with
    | None => Uncaught JSONDecodeError
    | Some v => Exit0 (json_dumps v 2 +:+ newline)
    end.

Definition portfolio (api_base token : string) : ending :=
  let headers : gmap string string := {["Authorization" := "Bearer " +:+ token]} in
  match requests_get (api_base +:+ "/portfolio") headers with
  | None => Uncaught RequestException
  | Some resp => portfolio_report resp
  end.

End Driver.

(** A 2xx status, "success" in HTTP's sense. *)
Definition is_2xx (code : Z) : bool := ((200 <=? code) && (code <? 300))%Z.

End Cli.

(** ** Concrete requests and states used below *)

Module Examples.
Import App.

(** An entropy source delivering the bytes 00, 01, 02, ... *)
Definition counting : Secrets.entropy :=
  fun i => default Byte.x00 (Byte.of_N (N.of_nat i)).

Definition credentials (username password : json) : gmap string json :=
  <["username" := username]> (<["password" := password]> ∅).

Definition post (b : payload) : request :=
  {| req_body := b; cookies := ∅; headers := ∅ |}.

Definition get (cookie : option string) (authorization : option string) : request :=
  {| req_body := NoBody;
     cookies := match cookie with Some c => {[SESSION_COOKIE := c]} | None => ∅ end;
     headers := match authorization with Some h => {["Authorization" := h]} | None => ∅ end |}.

Definition alice : request :=
  post (Json (JObj (credentials (JStr "alice") (JStr "secret")))).

(** [{"username": "", "password": "x"}] *)
Definition empty_user : request :=
  post (Json (JObj (credentials (JStr "") (JStr "x")))).

(** [{"username": 0, "password": "x"}] *)
Definition zero_user : request :=
  post (Json (JObj (credentials (JInt 0) (JStr "x")))).

(** [{"username": 5, "password": true}] *)
Definition five_true : request :=
  post (Json (JObj (credentials (JInt 5) (JBool true)))).

(** The token [alice] receives from [start counting]. *)
Definition token0 : string := "000102030405060708090a0b0c0d0e0f".

Definition logged_in : server := (login (start counting) alice).1.

(** An empty session cookie beside a bearer header carrying [token0]. *)
Definition empty_cookie : request := get (Some "") (Some ("Bearer " +:+ token0)).

(** [token0] in the cookie beside a bearer header carrying something else. *)
Definition cookie_and_bearer : request := get (Some token0) (Some "Bearer bogus").

(** [token0] sent raw in the Authorization header, no cookie. *)
Definition raw_header : request := get None (Some token0).

(** The body [[1]]: JSON, true, and not an object. *)
Definition array_body : request := post (Json (JArr [JInt 1])).

(** A response with a success status other than 200. *)
Definition no_content : Cli.http_response :=
  {| Cli.status_code := 204; Cli.text := "" |}.

End Examples.

(** ** Module-level configuration of backend/app.py *)

Module Config.

(** An environment string is a Python [str] of arbitrary characters: it is
    kept as the list of its code points. *)
Fixpoint str (s : string) : list N :=
  match s with
  | EmptyString => []
  | String c s' => N_of_ascii c :: str s'
  end.

(** A list is true when it is not empty. *)
#[export] Instance list_truthy {A : Type} : Truthy (list A) :=
  fun l => negb (length l =? 0)%nat.

(** [str.isspace] on one code point, over all of Unicode: the characters
    Python's [strip] removes. *)
Definition isspace (c : N) : bool :=
  ((9 <=? c) && (c <=? 13) || (28 <=? c) && (c <=? 32)
   || (c =? 133) || (c =? 160) || (c =? 5760)
   || (8192 <=? c) && (c <=? 8202)
   || (c =? 8232) || (c =? 8233) || (c =? 8239) || (c =? 8287) || (c =? 12288))%N.

(** [s.lstrip()] *)
Fixpoint lstrip (s : list N) : list N :=
  match s with
  | [] => []
  | c :: s' => if isspace c then lstrip s' else s
  end.

(** [s.rstrip()] *)
Fixpoint rstrip (s : list N) : list N :=
  match s with
  | [] => []
  | c :: s' =>
      match rstrip s' with
      | [] => if isspace c then [] else [c]
      | r => c :: r
      end
  end.

(** [s.strip()] *)
Definition strip (s : list N) : list N := rstrip (lstrip s).

(** [c in s] for one character [c]. *)
Fixpoint contains (c : N) (s : list N) : bool :=
  match s with
  | [] => false
  | a :: s' => (a =? c)%N || contains c s'
  end.

(** [s.split(sep)] for a one-character [sep]: every separator cuts, so the
    result has one piece more than there are separators and is never empty. *)
Fixpoint split (sep : N) (s : list N) : list (list N) :=
  match s with
  | [] => [[]]
  | c :: s' =>
      if (c =? sep)%N then [] :: split sep s'
      else match split sep s' with
           | [] => [[c]]
           | piece :: pieces => (c :: piece) :: pieces
           end
  end.

(** [sep.join(ls)] *)
Fixpoint join (sep : list N) (ls : list (list N)) : list N :=
  match ls with
  | [] => []
  | [x] => x
  | x :: xs => (x ++ sep ++ join sep xs)%list
  end.

Definition comma : N := 44.

Definition DEFAULT_ORIGINS : list (list N) :=
  [str "http://localhost:8000"; str "http://127.0.0.1:8000"].

(** [ORIGINS], from what [os.getenv("FRONTEND_ORIGINS", "")] returns:
    [[o.strip() for o in origin_env.split(",") if o.strip()] or [...]]. *)
Definition ORIGINS (FRONTEND_ORIGINS : option (list N)) : list (list N) :=
  let origin_env := default [] FRONTEND_ORIGINS in
  py_or (map strip (List.filter (fun o => truthy (strip o)) (split comma origin_env)))
        DEFAULT_ORIGINS.

End Config.

(** ** The driver talking to the backend *)

Module Wire.

(** [bytes.fromhex], the inverse of [Secrets.hex] on what it produces. *)
Definition unhex_digit (c : ascii) : option N :=
  let n := N_of_ascii c in
  if ((48 <=? n) && (n <=? 57))%N then Some (n - 48)%N
  else if ((97 <=? n) && (n <=? 102))%N then Some (n - 87)%N
  else None.

Fixpoint unhex (s : string) : option (list byte) :=
  match s with
  | EmptyString => Some []
  | String _ EmptyString => None
  | String a (String b rest) =>
      match unhex_digit a, unhex_digit b, unhex rest with
      | Some hi, Some lo, Some bs =>
          match Byte.of_N (16 * hi + lo) with
          | Some x => Some (x :: bs)
          | None => None
          end
      | _, _, _ => None
      end
  end.

(** Printable ASCII other than the space: the characters of a header value
    that [requests] sends and the server reads back unchanged. *)
Definition is_visible (c : ascii) : bool :=
  let n := N_of_ascii c in ((33 <=? n) && (n <=? 126))%N.

Fixpoint visible (s : string) : bool :=
  match s with
  | EmptyString => true
  | String c s' => is_visible c && visible s'
  end.

(** The response [requests] hands to the driver carries what the view
    answered: the same status, and a body whose JSON is the value given to
    [jsonify]. *)
Definition delivers (json_loads : string -> option json)
    (o : App.outcome) (resp : Cli.http_response) : Prop :=
  Cli.status_code resp = App.status_of o
  /\ forall r, o = App.Responded r -> json_loads (Cli.text resp) = Some (App.body r).

(** The request the backend sees when a browser sends back the cookies of a
    response, and nothing else. *)
Definition with_cookies_of (r : App.response) : App.request :=
  {| App.req_body := App.NoBody;
     App.cookies := App.ck_value <$> App.set_cookies r;
     App.headers := ∅ |}.

End Wire.

(** * Properties *)

(** ** Truthiness *)

Lemma truthy_string_empty (s : string) : truthy s = false <-> s = "".
Proof. destruct s; cbv [truthy string_truthy]; split; congruence. Qed.

Lemma truthy_JStr (s : string) : truthy (JStr s) = false <-> s = "".
Proof. apply truthy_string_empty. Qed.

Lemma py_or_truthy {A} `{Truthy A} (x y : A) : truthy x = true -> py_or x y = x.
Proof. unfold py_or. intros ->. reflexivity. Qed.

Lemma py_or_falsy {A} `{Truthy A} (x y : A) : truthy x = false -> py_or x y = y.
Proof. unfold py_or. intros ->. reflexivity. Qed.

(** ** Tokens *)

Module SecretsFacts.
Import Secrets.

Lemma hex_byte_shape (b : byte) :
  exists c1 c2, hex_byte b = String c1 (String c2 EmptyString)
                /\ is_hexdigit c1 = true /\ is_hexdigit c2 = true.
Proof.
  eexists _, _. split; [reflexivity|].
  destruct b; split; vm_compute; reflexivity.
Qed.

Lemma hex_length (bs : list byte) : String.length (hex bs) = (2 * length bs)%nat.
Proof.
  induction bs as [|b bs IH]; [reflexivity|].
  cbn [hex]. destruct (hex_byte_shape b) as (c1 & c2 & -> & _).
  change (S (S (String.length (hex bs))) = (2 * S (length bs))%nat).
  rewrite IH. lia.
Qed.

Lemma hex_all_hex (bs : list byte) : all_hex (hex bs) = true.
Proof.
  induction bs as [|b bs IH]; [reflexivity|].
  cbn [hex]. destruct (hex_byte_shape b) as (c1 & c2 & -> & H1 & H2).
  change (is_hexdigit c1 && (is_hexdigit c2 && all_hex (hex bs)) = true).
  rewrite H1, H2, IH. reflexivity.
Qed.

Lemma token_hex_length (n : nat) (src : entropy) :
  String.length (token_hex n src).1 = (2 * n)%nat.
Proof.
  unfold token_hex, token_bytes. cbn.
  rewrite hex_length, length_map, length_seq. reflexivity.
Qed.

Lemma token_hex_all_hex (n : nat) (src : entropy) :
  all_hex (token_hex n src).1 = true.
Proof. unfold token_hex, token_bytes. cbn. apply hex_all_hex. Qed.

End SecretsFacts.

(** ** The backend's views *)

Module AppFacts.
Import App.

Lemma mock_login_truthy (u p : json) : mock_login u p = truthy u && truthy p.
Proof.
  unfold mock_login, py_and.
  destruct (truthy u) eqn:E; [reflexivity | exact E].
Qed.

Lemma mock_login_false (u p : json) :
  mock_login u p = false <-> truthy u = false \/ truthy p = false.
Proof. rewrite mock_login_truthy. apply andb_false_iff. Qed.

Lemma mock_login_true (u p : json) :
  mock_login u p = true <-> truthy u = true /\ truthy p = true.
Proof. rewrite mock_login_truthy. apply andb_true_iff. Qed.

(** *** login *)

Lemma login_rejects (st : server) (rq : request) (d : gmap string json) :
  login_data rq = JObj d ->
  mock_login (dict_get d "username") (dict_get d "password") = false ->
  login st rq = (st, Responded invalid_credentials).
Proof. intros Hd Hm. unfold login. rewrite Hd, Hm. reflexivity. Qed.

Lemma login_accepts (st : server) (rq : request) (d : gmap string json) :
  login_data rq = JObj d ->
  mock_login (dict_get d "username") (dict_get d "password") = true ->
  login st rq =
    ({| SESSIONS := <[(Secrets.token_hex 16 (urandom st)).1 := dict_get d "username"]>
                      (SESSIONS st);
        urandom := (Secrets.token_hex 16 (urandom st)).2 |},
     Responded (login_ok (Secrets.token_hex 16 (urandom st)).1)).
Proof.
  intros Hd Hm. unfold login. rewrite Hd, Hm. cbn [negb].
  destruct (Secrets.token_hex 16 (urandom st)) as [tok src]. reflexivity.
Qed.

Lemma login_raises (st : server) (rq : request) :
  (forall d, login_data rq <> JObj d) ->
  login st rq = (st, Raised AttributeError).
Proof.
  intros Hd. unfold login.
  destruct (login_data rq) eqn:E; try reflexivity.
  exfalso. eapply Hd. reflexivity.
Qed.

Lemma login_data_no_json (rq : request) :
  get_json_silent rq = JNull -> login_data rq = JObj ∅.
Proof. unfold login_data. intros ->. reflexivity. Qed.

Lemma login_data_object (rq : request) (d : gmap string json) :
  req_body rq = Json (JObj d) -> login_data rq = JObj d.
Proof.
  intros Hb. unfold login_data, get_json_silent, py_or. rewrite Hb.
  destruct (truthy (JObj d)) eqn:E; [reflexivity|].
  cbv [truthy json_truthy] in E. apply negb_false_iff, Nat.eqb_eq in E.
  apply map_size_empty_inv in E. rewrite E. reflexivity.
Qed.

Lemma token_of_invalid_credentials : token_of (Responded invalid_credentials) = None.
Proof. reflexivity. Qed.

Lemma token_of_login_ok (tok : string) : token_of (Responded (login_ok tok)) = Some tok.
Proof.
  unfold token_of, login_ok, set_cookie, jsonify. cbn [body].
  rewrite lookup_insert_ne by discriminate.
  rewrite lookup_insert_eq. reflexivity.
Qed.

(** *** validate_token *)

Lemma validate_token_true (st : server) (tok : option string) :
  validate_token st tok = true <-> exists t, tok = Some t /\ t ∈ dom (SESSIONS st).
Proof.
  destruct tok as [t|]; cbn.
  - rewrite bool_decide_eq_true. split; [eauto|]. intros (t' & [= ->] & H). exact H.
  - split; [discriminate|]. intros (t & [=] & _).
Qed.

Lemma validate_token_lookup (st : server) (t : string) :
  validate_token st (Some t) = true <-> is_Some (SESSIONS st !! t).
Proof. cbn. rewrite bool_decide_eq_true. apply elem_of_dom. Qed.

(** The source's boolean and the spec's verdict agree. *)
Lemma validate_token_refines (st : server) (tok : option string) :
  validate_token st tok = true <-> exists u, validate_spec st tok = Authorized u.
Proof.
  destruct tok as [t|].
  - rewrite validate_token_lookup. unfold validate_spec.
    destruct (SESSIONS st !! t) as [u|]; split.
    + eauto.
    + intros _. eauto.
    + intros [u [=]].
    + intros [u [=]].
  - cbn. split; [discriminate | intros [u [=]]].
Qed.

Lemma validate_token_refines_neg (st : server) (tok : option string) :
  validate_token st tok = false <-> validate_spec st tok = Unauthorized.
Proof.
  destruct (validate_token st tok) eqn:E.
  - apply validate_token_refines in E as [u ->]. split; discriminate.
  - split; [intros _ | reflexivity].
    destruct (validate_spec st tok) as [u|] eqn:Ev; [|reflexivity].
    assert (validate_token st tok = true) by (apply validate_token_refines; eauto).
    congruence.
Qed.

(** *** portfolio *)

Lemma portfolio_state (st : server) (rq : request) : (portfolio st rq).1 = st.
Proof. unfold portfolio. destruct (negb _); reflexivity. Qed.

Lemma portfolio_authorized (st : server) (rq : request) :
  validate_token st (presented_token rq) = true ->
  portfolio st rq = (st, Responded (jsonify (mock_fetch_portfolio ()) 200)).
Proof. intros H. unfold portfolio. rewrite H. reflexivity. Qed.

Lemma portfolio_unauthorized (st : server) (rq : request) :
  validate_token st (presented_token rq) = false ->
  portfolio st rq = (st, Responded unauthorized).
Proof. intros H. unfold portfolio. rewrite H. reflexivity. Qed.

Lemma presented_token_cookie (rq : request) (c : string) :
  cookies rq !! SESSION_COOKIE = Some c -> c <> "" ->
  presented_token rq = Some c.
Proof.
  intros Hc Hne. unfold presented_token. rewrite Hc.
  apply py_or_truthy. destruct c; [congruence | reflexivity].
Qed.

Lemma presented_token_header (rq : request) :
  cookies rq !! SESSION_COOKIE = None \/ cookies rq !! SESSION_COOKIE = Some "" ->
  presented_token rq = Some (bearer_token rq).
Proof. intros [H|H]; unfold presented_token; rewrite H; reflexivity. Qed.

End AppFacts.

(** ** Sequences of requests *)

Module TraceFacts.
Import App AppFacts.

Lemma issued_cons (st : server) (r : http_request) (rest : list http_request) :
  issued st (r :: rest) = (handed_out st r ++ issued (serve st r).1 rest)%list.
Proof. reflexivity. Qed.

Lemma run_cons (st : server) (r : http_request) (rest : list http_request) :
  run st (r :: rest) =
    ((run (serve st r).1 rest).1, (serve st r).2 :: (run (serve st r).1 rest).2).
Proof.
  cbn [run]. destruct (serve st r) as [st1 o]. cbn [fst snd].
  destruct (run st1 rest) as [st2 os]. reflexivity.
Qed.

(** A login either leaves the process as it was and hands out nothing, or
    binds the freshly drawn token to the username it was given. *)
Lemma login_cases (st : server) (rq : request) :
  ((login st rq).1 = st /\ token_of (login st rq).2 = None
     /\ status_of (login st rq).2 <> 200%Z)
  \/ (exists u,
        SESSIONS (login st rq).1
          = <[(Secrets.token_hex 16 (urandom st)).1 := u]> (SESSIONS st)
        /\ (login st rq).2 = Responded (login_ok (Secrets.token_hex 16 (urandom st)).1)).
Proof.
  destruct (login_data rq) as [| | | | | |d] eqn:Hd;
    try (left; rewrite login_raises by (intros d'; rewrite Hd; discriminate);
         repeat split; cbn; discriminate).
  destruct (mock_login (dict_get d "username") (dict_get d "password")) eqn:Hm.
  - right. exists (dict_get d "username").
    rewrite (login_accepts st rq d Hd Hm). split; reflexivity.
  - left. rewrite (login_rejects st rq d Hd Hm). repeat split. cbn. discriminate.
Qed.

Lemma serve_quiet (st : server) (r : http_request) :
  handed_out st r = [] -> (serve st r).1 = st.
Proof.
  destruct r as [rq|rq]; cbn [serve handed_out].
  - destruct (login_cases st rq) as [(H & _) | (u & _ & Ho)]; [auto|].
    rewrite Ho, token_of_login_ok. discriminate.
  - intros _. apply portfolio_state.
Qed.

Lemma serve_lookup (st : server) (r : http_request) (t : string) :
  t ∉ handed_out st r ->
  SESSIONS (serve st r).1 !! t = SESSIONS st !! t.
Proof.
  destruct r as [rq|rq]; cbn [serve handed_out].
  - destruct (login_cases st rq) as [(H & _) | (u & Hs & Ho)].
    + rewrite H. reflexivity.
    + rewrite Ho, token_of_login_ok, Hs. cbn [option_list].
      intros Hn. apply lookup_insert_ne. intros E. apply Hn. rewrite <- E. left.
  - rewrite portfolio_state. reflexivity.
Qed.

Lemma serve_dom (st : server) (r : http_request) :
  dom (SESSIONS (serve st r).1) = dom (SESSIONS st) ∪ list_to_set (handed_out st r).
Proof.
  destruct r as [rq|rq]; cbn [serve handed_out].
  - destruct (login_cases st rq) as [(H & Ht & _) | (u & Hs & Ho)].
    + rewrite H, Ht. cbn. set_solver.
    + rewrite Ho, token_of_login_ok, Hs, dom_insert_L. cbn. set_solver.
  - rewrite portfolio_state. cbn. set_solver.
Qed.

Lemma handed_out_shape (st : server) (r : http_request) (t : string) :
  t ∈ handed_out st r ->
  String.length t = 32%nat /\ Secrets.all_hex t = true.
Proof.
  destruct r as [rq|rq]; cbn [serve handed_out]; [|intros H; inversion H].
  destruct (login_cases st rq) as [(_ & Ht & _) | (u & _ & Ho)].
  - rewrite Ht. intros H; inversion H.
  - rewrite Ho, token_of_login_ok. cbn [option_list].
    intros ->%list_elem_of_singleton. split.
    + apply (SecretsFacts.token_hex_length 16).
    + apply SecretsFacts.token_hex_all_hex.
Qed.

(** The keys of [SESSIONS] are the keys it had plus the tokens handed out. *)
Lemma run_dom (trace : list http_request) (st : server) :
  dom (SESSIONS (run st trace).1) = dom (SESSIONS st) ∪ list_to_set (issued st trace).
Proof.
  revert st. induction trace as [|r rest IH]; intros st.
  - cbn. set_solver.
  - rewrite run_cons, issued_cons. cbn [fst].
    rewrite IH, serve_dom, list_to_set_app_L. set_solver.
Qed.

Lemma run_lookup (trace : list http_request) (st : server) (t : string) :
  t ∉ issued st trace ->
  SESSIONS (run st trace).1 !! t = SESSIONS st !! t.
Proof.
  revert st. induction trace as [|r rest IH]; intros st Hn; [reflexivity|].
  rewrite issued_cons in Hn. rewrite run_cons. cbn [fst].
  rewrite IH by set_solver. apply serve_lookup. set_solver.
Qed.

Lemma run_quiet (trace : list http_request) (st : server) :
  issued st trace = [] -> (run st trace).1 = st.
Proof.
  revert st. induction trace as [|r rest IH]; intros st Hn; [reflexivity|].
  rewrite issued_cons in Hn. apply app_eq_nil in Hn as [H1 H2].
  rewrite run_cons. cbn [fst].
  rewrite (serve_quiet st r H1) in *. auto.
Qed.

Lemma issued_shape (trace : list http_request) (st : server) (t : string) :
  t ∈ issued st trace ->
  String.length t = 32%nat /\ Secrets.all_hex t = true.
Proof.
  revert st. induction trace as [|r rest IH]; intros st Hin.
  - inversion Hin.
  - rewrite issued_cons in Hin. apply elem_of_app in Hin as [H|H].
    + eapply handed_out_shape; eauto.
    + eapply IH; eauto.
Qed.

(** From process start, the valid tokens are exactly the issued ones. *)
Lemma started_dom (src : Secrets.entropy) (trace : list http_request) (t : string) :
  t ∈ dom (SESSIONS (run (start src) trace).1) <-> t ∈ issued (start src) trace.
Proof. rewrite run_dom. cbn [start SESSIONS]. set_solver. Qed.

End TraceFacts.

(** ** Worked requests *)

Module ExampleFacts.
Import App Examples.

Lemma alice_logs_in :
  login (start counting) alice =
    ({| SESSIONS := {[token0 := JStr "alice"]};
        urandom := fun i => counting (16 + i)%nat |},
     Responded (login_ok token0)).
Proof.
  unfold alice. erewrite AppFacts.login_accepts by
    (first [apply AppFacts.login_data_object; reflexivity | reflexivity]).
  reflexivity.
Qed.

Lemma logged_in_sessions : SESSIONS logged_in = {[token0 := JStr "alice"]}.
Proof. unfold logged_in. rewrite alice_logs_in. reflexivity. Qed.

Lemma token0_valid : validate_token logged_in (Some token0) = true.
Proof.
  apply AppFacts.validate_token_lookup. rewrite logged_in_sessions.
  rewrite lookup_singleton_eq. eauto.
Qed.

End ExampleFacts.

(** ** POST /api/login *)

Module LoginClaims.
Import App AppFacts Examples.

Lemma login_ok_not_rejection (tok : string) :
  Responded (login_ok tok) <> Responded invalid_credentials.
Proof. intros H. apply (f_equal status_of) in H. discriminate H. Qed.

(** Whatever the JSON types of the two fields: for a request whose body
    yields a dict, the login is rejected exactly when the username or the
    password value is false in Python's sense, and a rejection leaves the
    process state as it was. *)
Lemma login_rejects_iff_falsy (st : server) (rq : request) (d : gmap string json) :
  login_data rq = JObj d ->
  ((login st rq).2 = Responded invalid_credentials
     <-> truthy (dict_get d "username") = false \/ truthy (dict_get d "password") = false)
  /\ (truthy (dict_get d "username") = true /\ truthy (dict_get d "password") = true ->
      exists tok, (login st rq).2 = Responded (login_ok tok)
                  /\ status_of (login st rq).2 = 200%Z)
  /\ ((login st rq).2 = Responded invalid_credentials -> (login st rq).1 = st)
  /\ (forall key, d !! key = None -> dict_get d key = JStr "")
  /\ (forall s, truthy (JStr s) = false <-> s = "").
Proof.
  intros Hd.
  destruct (mock_login (dict_get d "username") (dict_get d "password")) eqn:Hm.
  - rewrite (login_accepts st rq d Hd Hm). cbn [fst snd].
    pose proof (proj1 (mock_login_true _ _) Hm) as [Hu Hp].
    split; [|split; [|split; [|split]]].
    + split.
      * intros H. destruct (login_ok_not_rejection _ H).
      * rewrite Hu, Hp. intros [?|?]; discriminate.
    + intros _. eexists. split; reflexivity.
    + intros H. destruct (login_ok_not_rejection _ H).
    + intros key Hk. unfold dict_get. rewrite Hk. reflexivity.
    + apply truthy_JStr.
  - rewrite (login_rejects st rq d Hd Hm). cbn [fst snd].
    pose proof (proj1 (mock_login_false _ _) Hm) as Hf.
    split; [|split; [|split; [|split]]].
    + split; auto.
    + intros [Hu Hp]. rewrite Hu, Hp in Hf. destruct Hf; discriminate.
    + reflexivity.
    + intros key Hk. unfold dict_get. rewrite Hk. reflexivity.
    + apply truthy_JStr.
Qed.

(** C1.  [POST /api/login] on string credentials, a field missing from the
    JSON body reading as the empty string: the answer is 401 "invalid
    credentials" if and only if the username or the password is the empty
    string; whenever both are non-empty the login succeeds with status 200;
    and a rejection leaves the process state untouched, so no session record
    is created. *)
Theorem login_rejects_iff_empty (st : server) (rq : request) (d : gmap string json)
    (username password : string) :
  login_data rq = JObj d ->
  dict_get d "username" = JStr username ->
  dict_get d "password" = JStr password ->
  ((login st rq).2 = Responded invalid_credentials <-> username = "" \/ password = "")
  /\ (status_of (login st rq).2 = 401%Z <-> username = "" \/ password = "")
  /\ (username <> "" /\ password <> "" ->
      exists tok, (login st rq).2 = Responded (login_ok tok)
                  /\ status_of (login st rq).2 = 200%Z)
  /\ (username = "" \/ password = "" ->
      login st rq = (st, Responded invalid_credentials)
      /\ SESSIONS (login st rq).1 = SESSIONS st)
  /\ (forall key, d !! key = None -> dict_get d key = JStr "")
  /\ invalid_credentials = jsonify (JObj {["error" := JStr "invalid credentials"]}) 401.
Proof.
  intros Hd Hu Hp.
  destruct (login_rejects_iff_falsy st rq d Hd) as (Hiff & Hok & Hst & Hmiss & _).
  rewrite Hu, Hp, !truthy_JStr in Hiff.
  assert (Hacc : username <> "" /\ password <> "" ->
                 exists tok, (login st rq).2 = Responded (login_ok tok)
                             /\ status_of (login st rq).2 = 200%Z).
  { intros [H1 H2]. apply Hok. rewrite Hu, Hp.
    destruct username, password; try congruence. split; reflexivity. }
  assert (Hrej : username = "" \/ password = "" ->
                 login st rq = (st, Responded invalid_credentials)).
  { intros He. apply Hiff in He. pose proof (Hst He) as Hs.
    destruct (login st rq) as [st' o]. cbn [fst snd] in *. congruence. }
  split; [exact Hiff|]. split; [|split; [exact Hacc|split; [|split; [exact Hmiss|reflexivity]]]].
  - split.
    + intros H401. destruct (decide (username = "")) as [|H1]; [left; assumption|].
      destruct (decide (password = "")) as [|H2]; [right; assumption|].
      destruct (Hacc (conj H1 H2)) as (tok & _ & H200). rewrite H200 in H401. discriminate.
    + intros He. rewrite (Hrej He). reflexivity.
  - intros He. rewrite (Hrej He). split; reflexivity.
Qed.

Lemma login_rejects_iff_empty_witness :
  (login_data empty_user = JObj (credentials (JStr "") (JStr "x"))
   /\ dict_get (credentials (JStr "") (JStr "x")) "username" = JStr ""
   /\ dict_get (credentials (JStr "") (JStr "x")) "password" = JStr "x")
  /\ login (start counting) empty_user = (start counting, Responded invalid_credentials).
Proof.
  assert (Hd : login_data empty_user = JObj (credentials (JStr "") (JStr "x")))
    by (apply login_data_object; reflexivity).
  split; [split; [exact Hd | split; reflexivity]|].
  refine (proj1 (proj1 (proj2 (proj2 (proj2
            (login_rejects_iff_empty (start counting) empty_user _ "" "x"
               Hd eq_refl eq_refl)))) _)).
  left. reflexivity.
Defined.

(** C2.  Round trip: a login whose username and password are non-empty
    strings answers 200 with a token of exactly 32 hexadecimal characters,
    the session map gains the binding token -> username, and validating the
    token right afterwards says yes, the spec's verdict being
    Authorized(username). *)
Theorem login_round_trip (st : server) (rq : request) (d : gmap string json)
    (username password : string) :
  login_data rq = JObj d ->
  dict_get d "username" = JStr username ->
  dict_get d "password" = JStr password ->
  username <> "" -> password <> "" ->
  exists token,
    (login st rq).2 = Responded (login_ok token)
    /\ status_of (login st rq).2 = 200%Z
    /\ token_of (login st rq).2 = Some token
    /\ String.length token = 32%nat
    /\ Secrets.all_hex token = true
    /\ SESSIONS (login st rq).1 = <[token := JStr username]> (SESSIONS st)
    /\ validate_token (login st rq).1 (Some token) = true
    /\ validate_spec (login st rq).1 (Some token) = Authorized (JStr username).
Proof.
  intros Hd Hu Hp Hne1 Hne2.
  assert (Hm : mock_login (dict_get d "username") (dict_get d "password") = true).
  { rewrite Hu, Hp. apply mock_login_true.
    destruct username, password; try congruence. split; reflexivity. }
  exists (Secrets.token_hex 16 (urandom st)).1.
  rewrite (login_accepts st rq d Hd Hm), Hu. cbn [fst snd SESSIONS].
  split; [reflexivity|]. split; [reflexivity|].
  split; [apply token_of_login_ok|].
  split; [apply (SecretsFacts.token_hex_length 16)|].
  split; [apply SecretsFacts.token_hex_all_hex|].
  split; [reflexivity|]. split.
  - apply validate_token_lookup. cbn [SESSIONS]. rewrite lookup_insert_eq. eauto.
  - unfold validate_spec. cbn [SESSIONS]. rewrite lookup_insert_eq. reflexivity.
Qed.

Lemma login_round_trip_witness :
  exists token,
    (login (start counting) alice).2 = Responded (login_ok token)
    /\ status_of (login (start counting) alice).2 = 200%Z
    /\ token_of (login (start counting) alice).2 = Some token
    /\ String.length token = 32%nat
    /\ Secrets.all_hex token = true
    /\ SESSIONS (login (start counting) alice).1
       = <[token := JStr "alice"]> (SESSIONS (start counting))
    /\ validate_token (login (start counting) alice).1 (Some token) = true
    /\ validate_spec (login (start counting) alice).1 (Some token)
       = Authorized (JStr "alice").
Proof.
  apply (login_round_trip (start counting) alice
           (credentials (JStr "alice") (JStr "secret")) "alice" "secret").
  - apply login_data_object. reflexivity.
  - reflexivity.
  - reflexivity.
  - discriminate.
  - discriminate.
Defined.

(** C9.  A [POST /api/login] whose body is absent or does not decode as JSON
    is handled as if the body were the empty object: both credentials read
    as the empty string and the answer is 401 "invalid credentials", the
    same answer an empty credential gets; nothing is raised and the process
    state is untouched. *)
Theorem login_without_json (st : server) (rq : request) :
  req_body rq = NoBody \/ (exists raw, req_body rq = NotJson raw) ->
  login_data rq = JObj ∅
  /\ dict_get ∅ "username" = JStr ""
  /\ dict_get ∅ "password" = JStr ""
  /\ login st rq = (st, Responded invalid_credentials)
  /\ status_of (login st rq).2 = 401%Z
  /\ body invalid_credentials = JObj {["error" := JStr "invalid credentials"]}.
Proof.
  intros Hb.
  assert (Hd : login_data rq = JObj ∅).
  { apply login_data_no_json. unfold get_json_silent.
    destruct Hb as [-> | [raw ->]]; reflexivity. }
  assert (Hl : login st rq = (st, Responded invalid_credentials)).
  { apply (login_rejects st rq ∅ Hd). reflexivity. }
  split; [exact Hd|]. split; [reflexivity|]. split; [reflexivity|].
  split; [exact Hl|]. rewrite Hl. split; reflexivity.
Qed.

Lemma login_without_json_witness :
  (req_body (post (NotJson "{username:")) = NoBody
   \/ exists raw, req_body (post (NotJson "{username:")) = NotJson raw)
  /\ login (start counting) (post (NotJson "{username:"))
     = (start counting, Responded invalid_credentials).
Proof.
  assert (H : req_body (post (NotJson "{username:")) = NoBody
              \/ exists raw, req_body (post (NotJson "{username:")) = NotJson raw)
    by (right; eexists; reflexivity).
  split; [exact H|].
  exact (proj1 (proj2 (proj2 (proj2
           (login_without_json (start counting) (post (NotJson "{username:")) H))))).
Defined.

(** C10.  Credentials are checked by truth value, whatever their JSON type.
    When the body is an object whose username and password are both true
    values, the login succeeds and the username value itself, string or not,
    becomes the session record's value; when either is false the login is
    rejected.  A non-zero number and [true] are true; 0, [false] and [null]
    are false. *)
Theorem login_by_truthiness (st : server) (rq : request) (d : gmap string json)
    (username password : json) :
  req_body rq = Json (JObj d) ->
  d !! "username" = Some username ->
  d !! "password" = Some password ->
  (truthy username = true /\ truthy password = true ->
     (login st rq).2 = Responded (login_ok (Secrets.token_hex 16 (urandom st)).1)
     /\ status_of (login st rq).2 = 200%Z
     /\ SESSIONS (login st rq).1 !! (Secrets.token_hex 16 (urandom st)).1 = Some username)
  /\ (truthy username = false \/ truthy password = false ->
      login st rq = (st, Responded invalid_credentials))
  /\ (forall z, z <> 0%Z -> truthy (JInt z) = true)
  /\ truthy (JBool true) = true
  /\ truthy (JInt 0) = false /\ truthy (JBool false) = false /\ truthy JNull = false.
Proof.
  intros Hb Hu Hp.
  pose proof (login_data_object rq d Hb) as Hd.
  assert (Eu : dict_get d "username" = username) by (unfold dict_get; rewrite Hu; reflexivity).
  assert (Ep : dict_get d "password" = password) by (unfold dict_get; rewrite Hp; reflexivity).
  split; [|split; [|split; [|repeat split]]].
  - intros Ht. apply mock_login_true in Ht. rewrite <- Eu, <- Ep in Ht.
    rewrite (login_accepts st rq d Hd Ht), Eu. cbn [fst snd SESSIONS].
    split; [reflexivity|]. split; [reflexivity|]. apply lookup_insert_eq.
  - intros Hf. apply mock_login_false in Hf. rewrite <- Eu, <- Ep in Hf.
    apply (login_rejects st rq d Hd Hf).
  - intros z Hz. cbv [truthy json_truthy]. apply negb_true_iff, Z.eqb_neq, Hz.
Qed.

Lemma login_by_truthiness_witness :
  (truthy (JInt 5) = true /\ truthy (JBool true) = true)
  /\ (login (start counting) five_true).2 = Responded (login_ok token0)
  /\ SESSIONS (login (start counting) five_true).1 !! token0 = Some (JInt 5).
Proof.
  assert (Ht : truthy (JInt 5) = true /\ truthy (JBool true) = true)
    by (split; reflexivity).
  split; [exact Ht|].
  destruct (proj1 (login_by_truthiness (start counting) five_true
                     (credentials (JInt 5) (JBool true)) (JInt 5) (JBool true)
                     eq_refl eq_refl eq_refl) Ht) as (H1 & _ & H3).
  split; [exact H1 | exact H3].
Defined.

End LoginClaims.

(** ** GET /api/portfolio *)

Module PortfolioClaims.
Import App AppFacts Examples.

Lemma hexdigit_not_space (c : ascii) :
  Secrets.is_hexdigit c = true -> PyStr.isspace c = false.
Proof.
  destruct c as [b0 b1 b2 b3 b4 b5 b6 b7].
  destruct b0, b1, b2, b3, b4, b5, b6, b7; vm_compute; congruence.
Qed.

Lemma hexdigit_not_B (c : ascii) :
  Secrets.is_hexdigit c = true -> Ascii.eqb "B" c = false.
Proof.
  destruct c as [b0 b1 b2 b3 b4 b5 b6 b7].
  destruct b0, b1, b2, b3, b4, b5, b6, b7; vm_compute; congruence.
Qed.

Lemma rstrip_hex (t : string) : Secrets.all_hex t = true -> PyStr.rstrip t = t.
Proof.
  induction t as [|c t IH]; [reflexivity|].
  cbn [Secrets.all_hex]. intros [Hc Ht]%andb_true_iff.
  cbn [PyStr.rstrip]. rewrite (IH Ht), (hexdigit_not_space c Hc).
  destruct t; reflexivity.
Qed.

Lemma lstrip_hex (t : string) : Secrets.all_hex t = true -> PyStr.lstrip t = t.
Proof.
  destruct t as [|c t]; [reflexivity|].
  cbn [Secrets.all_hex]. intros [Hc _]%andb_true_iff.
  cbn [PyStr.lstrip]. rewrite (hexdigit_not_space c Hc). reflexivity.
Qed.

Lemma removeprefix_hex (t : string) :
  Secrets.all_hex t = true -> PyStr.removeprefix "Bearer " t = t.
Proof.
  destruct t as [|c t]; [reflexivity|].
  cbn [Secrets.all_hex]. intros [Hc _]%andb_true_iff.
  unfold PyStr.removeprefix. cbn [PyStr.strip_prefix].
  rewrite (hexdigit_not_B c Hc). reflexivity.
Qed.

Lemma removeprefix_bearer (t : string) : PyStr.removeprefix "Bearer " ("Bearer " +:+ t) = t.
Proof. reflexivity. Qed.

(** A token as [login] makes it is what the header strategy extracts from
    it, with or without the prefix. *)
Lemma bearer_normalises_hex (t : string) :
  Secrets.all_hex t = true ->
  PyStr.strip (PyStr.removeprefix "Bearer " t) = t
  /\ PyStr.strip (PyStr.removeprefix "Bearer " ("Bearer " +:+ t)) = t.
Proof.
  intros Ht. rewrite removeprefix_bearer, (removeprefix_hex t Ht).
  unfold PyStr.strip. rewrite (lstrip_hex t Ht), (rstrip_hex t Ht). auto.
Qed.

Lemma run_portfolios (st : server) (rqs : list request) (t : string) :
  validate_token st (Some t) = true ->
  Forall (fun rq => presented_token rq = Some t) rqs ->
  run st (map GET_api_portfolio rqs)
  = (st, map (fun _ => Responded (jsonify (mock_fetch_portfolio ()) 200)) rqs).
Proof.
  intros Hv. induction 1 as [|rq rqs Hrq _ IH]; [reflexivity|].
  cbn [map]. rewrite TraceFacts.run_cons. cbn [serve].
  rewrite (portfolio_authorized st rq) by (rewrite Hrq; exact Hv).
  cbn [fst snd]. rewrite IH. reflexivity.
Qed.

(** C3.  Validation says yes exactly for the keys of the session map (and
    the spec's verdict is then Authorized).  In a process served from its
    start, a presented value that no login has handed out, the empty string
    and a missing credential among them, is refused: validation says no, the
    verdict is Unauthorized, and [GET /api/portfolio] answers 401 with
    [{"error": "unauthorized"}]. *)
Theorem unissued_token_unauthorized (src : Secrets.entropy) (trace : list http_request)
    (presented : option string) :
  (forall st tok,
     (validate_token st tok = true <-> exists t, tok = Some t /\ t ∈ dom (SESSIONS st))
     /\ (validate_token st tok = true <-> exists u, validate_spec st tok = Authorized u))
  /\ ((forall t, presented = Some t -> t ∉ issued (start src) trace) ->
      validate_token (run (start src) trace).1 presented = false
      /\ validate_spec (run (start src) trace).1 presented = Unauthorized
      /\ forall rq, presented_token rq = presented ->
           portfolio (run (start src) trace).1 rq
           = ((run (start src) trace).1, Responded unauthorized))
  /\ validate_token (run (start src) trace).1 (Some "") = false
  /\ validate_token (run (start src) trace).1 None = false
  /\ (forall rq, cookies rq !! SESSION_COOKIE = None ->
                 headers rq !! "Authorization" = None ->
        portfolio (run (start src) trace).1 rq
        = ((run (start src) trace).1, Responded unauthorized))
  /\ unauthorized = jsonify (JObj {["error" := JStr "unauthorized"]}) 401.
Proof.
  set (st := (run (start src) trace).1).
  assert (Hfresh : forall tok, (forall t, tok = Some t -> t ∉ issued (start src) trace) ->
                     validate_token st tok = false).
  { intros [t|] Hn; [|reflexivity].
    apply not_true_is_false. intros Hv.
    apply validate_token_true in Hv as (t' & [= <-] & Hin).
    apply TraceFacts.started_dom in Hin. exact (Hn t eq_refl Hin). }
  assert (Hempty : validate_token st (Some "") = false).
  { apply Hfresh. intros t [= <-] Hin.
    apply TraceFacts.issued_shape in Hin as [Hlen _]. discriminate Hlen. }
  split; [|split; [|split; [|split; [|split]]]].
  - intros st' tok. split; [apply validate_token_true | apply validate_token_refines].
  - intros Hn. pose proof (Hfresh presented Hn) as Hv.
    split; [exact Hv|]. split; [apply validate_token_refines_neg, Hv|].
    intros rq Hrq. apply portfolio_unauthorized. rewrite Hrq. exact Hv.
  - exact Hempty.
  - reflexivity.
  - intros rq Hc Hh. apply portfolio_unauthorized.
    unfold presented_token, bearer_token. rewrite Hc, Hh. exact Hempty.
  - reflexivity.
Qed.

(** C4, as stated, does not hold.  A request may carry the session cookie
    with an empty value beside a bearer header; the empty value is false, so
    the token of the header is the one validated, and the request is served
    although the cookie value itself is no valid token. *)
Lemma empty_cookie_yields_to_bearer :
  cookies empty_cookie !! SESSION_COOKIE = Some ""
  /\ headers empty_cookie !! "Authorization" = Some ("Bearer " +:+ token0)
  /\ presented_token empty_cookie = Some token0
  /\ Some token0 <> Some ""
  /\ validate_token logged_in (Some "") = false
  /\ portfolio logged_in empty_cookie
     = (logged_in, Responded (jsonify (mock_fetch_portfolio ()) 200)).
Proof.
  split; [reflexivity|]. split; [reflexivity|].
  assert (Hp : presented_token empty_cookie = Some token0) by reflexivity.
  split; [exact Hp|]. split; [discriminate|]. split.
  - apply not_true_is_false. intros Hv.
    apply validate_token_lookup in Hv. rewrite ExampleFacts.logged_in_sessions in Hv.
    rewrite lookup_singleton_ne in Hv by discriminate. destruct Hv as [? [=]].
  - apply portfolio_authorized. rewrite Hp. apply ExampleFacts.token0_valid.
Qed.

(** C4, amended.  [GET /api/portfolio] tries the [ibkr_session] cookie first
    and the Authorization header second.  For every request carrying a
    non-empty cookie value, with or without a bearer header, the cookie value
    is the one validated and decides the answer; a missing or empty cookie
    falls through to the header. *)
Theorem cookie_checked_first (st : server) (rq : request) (c : string) :
  cookies rq !! SESSION_COOKIE = Some c ->
  c <> "" ->
  presented_token rq = Some c
  /\ portfolio st rq
     = (st, Responded (if validate_token st (Some c)
                       then jsonify (mock_fetch_portfolio ()) 200
                       else unauthorized))
  /\ (forall rq', cookies rq' !! SESSION_COOKIE = None
                  \/ cookies rq' !! SESSION_COOKIE = Some "" ->
                  presented_token rq' = Some (bearer_token rq')).
Proof.
  intros Hc Hne.
  pose proof (presented_token_cookie rq c Hc Hne) as Hp.
  split; [exact Hp|]. split; [|apply presented_token_header].
  destruct (validate_token st (Some c)) eqn:Hv.
  - apply portfolio_authorized. rewrite Hp. exact Hv.
  - apply portfolio_unauthorized. rewrite Hp. exact Hv.
Qed.

Lemma cookie_checked_first_witness :
  (cookies cookie_and_bearer !! SESSION_COOKIE = Some token0 /\ token0 <> "")
  /\ headers cookie_and_bearer !! "Authorization" = Some "Bearer bogus"
  /\ presented_token cookie_and_bearer = Some token0.
Proof.
  assert (Hc : cookies cookie_and_bearer !! SESSION_COOKIE = Some token0) by reflexivity.
  assert (Hne : token0 <> "") by discriminate.
  split; [split; [exact Hc | exact Hne]|]. split; [reflexivity|].
  exact (proj1 (cookie_checked_first logged_in cookie_and_bearer token0 Hc Hne)).
Defined.

(** C6.  [mock_fetch_portfolio] is total and ignores its argument: every two
    calls return the same snapshot, the three fixed positions with cash
    18250, and so every two authorized [GET /api/portfolio] requests get the
    same 200 response. *)
Theorem portfolio_snapshot_fixed (A B : Type) (username1 : A) (username2 : B) :
  mock_fetch_portfolio username1 = mock_fetch_portfolio username2
  /\ mock_fetch_portfolio username1
     = JObj (<["positions" := JArr positions]> (<["cash" := JInt 18250]> ∅))
  /\ length positions = 3%nat
  /\ (forall st1 st2 rq1 rq2,
        validate_token st1 (presented_token rq1) = true ->
        validate_token st2 (presented_token rq2) = true ->
        (portfolio st1 rq1).2 = (portfolio st2 rq2).2
        /\ (portfolio st1 rq1).2
           = Responded (jsonify (mock_fetch_portfolio username1) 200)).
Proof.
  split; [reflexivity|]. split; [reflexivity|]. split; [reflexivity|].
  intros st1 st2 rq1 rq2 H1 H2.
  rewrite (portfolio_authorized st1 rq1 H1), (portfolio_authorized st2 rq2 H2).
  split; reflexivity.
Qed.

(** C8.  The "Bearer " prefix is optional.  With no session cookie, a request
    whose Authorization value, once an optional leading "Bearer " is removed
    and surrounding whitespace stripped, is a key of the session map is
    authorized and served.  A token as login issues it (hexadecimal digits
    only) is unchanged by that normalisation, so it is accepted when sent
    raw. *)
Theorem bearer_prefix_optional (st : server) (rq : request) (h : string) :
  cookies rq !! SESSION_COOKIE = None ->
  headers rq !! "Authorization" = Some h ->
  PyStr.strip (PyStr.removeprefix "Bearer " h) ∈ dom (SESSIONS st) ->
  presented_token rq = Some (PyStr.strip (PyStr.removeprefix "Bearer " h))
  /\ validate_token st (presented_token rq) = true
  /\ (exists u, validate_spec st (presented_token rq) = Authorized u)
  /\ portfolio st rq = (st, Responded (jsonify (mock_fetch_portfolio ()) 200))
  /\ (Secrets.all_hex h = true -> PyStr.strip (PyStr.removeprefix "Bearer " h) = h).
Proof.
  intros Hc Hh Hin.
  assert (Hp : presented_token rq = Some (PyStr.strip (PyStr.removeprefix "Bearer " h))).
  { rewrite presented_token_header by (left; exact Hc).
    unfold bearer_token. rewrite Hh. reflexivity. }
  assert (Hv : validate_token st (presented_token rq) = true).
  { rewrite Hp. apply validate_token_true. eauto. }
  split; [exact Hp|]. split; [exact Hv|].
  split; [apply validate_token_refines, Hv|].
  split; [apply portfolio_authorized, Hv|].
  intros Hhex. apply (bearer_normalises_hex h Hhex).
Qed.

Lemma bearer_prefix_optional_witness :
  (cookies raw_header !! SESSION_COOKIE = None
   /\ headers raw_header !! "Authorization" = Some token0
   /\ PyStr.strip (PyStr.removeprefix "Bearer " token0) ∈ dom (SESSIONS logged_in))
  /\ portfolio logged_in raw_header
     = (logged_in, Responded (jsonify (mock_fetch_portfolio ()) 200)).
Proof.
  assert (Hc : cookies raw_header !! SESSION_COOKIE = None) by reflexivity.
  assert (Hh : headers raw_header !! "Authorization" = Some token0) by reflexivity.
  assert (Hin : PyStr.strip (PyStr.removeprefix "Bearer " token0) ∈ dom (SESSIONS logged_in)).
  { change (PyStr.strip (PyStr.removeprefix "Bearer " token0)) with token0.
    rewrite ExampleFacts.logged_in_sessions, dom_singleton_L.
    apply elem_of_singleton. reflexivity. }
  split; [split; [exact Hc | split; [exact Hh | exact Hin]]|].
  exact (proj1 (proj2 (proj2 (proj2
           (bearer_prefix_optional logged_in raw_header token0 Hc Hh Hin))))).
Defined.

End PortfolioClaims.

(** ** The lifetime of a session record *)

Module SessionClaims.
Import App AppFacts Examples.

(** C5.  A session record stays for the lifetime of the process.  A request
    that is not a successful login leaves the process state as it was, and
    so does a whole trace along which no token is handed out; no request
    removes a key, so a valid token stays valid along every trace;
    a record is only ever written by a login that hands out its token, so
    along a trace that does not hand it out again the record is what it was;
    and any number of portfolio requests presenting a valid token are all
    served, leaving the verdict Authorized(username) unchanged. *)
Theorem sessions_never_expire (st : server) (trace : list http_request) (t : string) :
  (forall r, (forall rq, r = POST_api_login rq -> status_of (serve st r).2 <> 200%Z) ->
             (serve st r).1 = st)
  /\ (issued st trace = [] -> (run st trace).1 = st)
  /\ (t ∈ dom (SESSIONS st) -> t ∈ dom (SESSIONS (run st trace).1))
  /\ (validate_token st (Some t) = true ->
      validate_token (run st trace).1 (Some t) = true)
  /\ (t ∉ issued st trace ->
      SESSIONS (run st trace).1 !! t = SESSIONS st !! t
      /\ validate_spec (run st trace).1 (Some t) = validate_spec st (Some t))
  /\ (forall rqs u,
        validate_spec st (Some t) = Authorized u ->
        Forall (fun rq => presented_token rq = Some t) rqs ->
        run st (map GET_api_portfolio rqs)
        = (st, map (fun _ => Responded (jsonify (mock_fetch_portfolio ()) 200)) rqs)
        /\ validate_spec (run st (map GET_api_portfolio rqs)).1 (Some t) = Authorized u).
Proof.
  assert (Hkeep : t ∈ dom (SESSIONS st) -> t ∈ dom (SESSIONS (run st trace).1)).
  { rewrite TraceFacts.run_dom. set_solver. }
  split; [|split; [|split; [|split; [|split]]]].
  - intros [rq|rq] Hr; cbn [serve] in *.
    + destruct (TraceFacts.login_cases st rq) as [(H & _) | (u & _ & Ho)]; [exact H|].
      exfalso. apply (Hr rq eq_refl). rewrite Ho. reflexivity.
    + apply portfolio_state.
  - apply TraceFacts.run_quiet.
  - exact Hkeep.
  - intros Hv. apply validate_token_true in Hv as (t' & [= <-] & Hin).
    apply validate_token_true. eauto.
  - intros Hn. pose proof (TraceFacts.run_lookup trace st t Hn) as Hl.
    split; [exact Hl|]. unfold validate_spec. rewrite Hl. reflexivity.
  - intros rqs u Hu Hall.
    assert (Hv : validate_token st (Some t) = true)
      by (apply validate_token_refines; eauto).
    rewrite (PortfolioClaims.run_portfolios st rqs t Hv Hall).
    split; [reflexivity | exact Hu].
Qed.

End SessionClaims.

(** ** The command-line driver *)

Module CliClaims.
Import Cli Examples.

Lemma not_200 (code : Z) : negb (code =? 200)%Z = true <-> code <> 200%Z.
Proof. rewrite negb_true_iff. apply Z.eqb_neq. Qed.

Lemma login_report_failure json_loads py_str (resp : http_response) :
  status_code resp <> 200%Z ->
  login_report json_loads py_str resp
  = SystemExit1 ("Login failed (" +:+ pretty (status_code resp) +:+ "): "
                 +:+ text resp +:+ newline).
Proof. intros H%not_200. unfold login_report. rewrite H. reflexivity. Qed.

Lemma portfolio_report_failure json_loads json_dumps (resp : http_response) :
  status_code resp <> 200%Z ->
  portfolio_report json_loads json_dumps resp
  = SystemExit1 ("Request failed (" +:+ pretty (status_code resp) +:+ "): "
                 +:+ text resp +:+ newline).
Proof. intros H%not_200. unfold portfolio_report. rewrite H. reflexivity. Qed.

Lemma login_report_200 json_loads py_str (resp : http_response) :
  status_code resp = 200%Z ->
  login_report json_loads py_str resp
  = match json_loads (text resp) with
    | None => Uncaught JSONDecodeError
    | Some (JObj d) => Exit0 (echo py_str (d !! "token"))
    | Some _ => Uncaught AttributeError
    end.
Proof. intros H. unfold login_report. rewrite H. reflexivity. Qed.

Lemma portfolio_report_200 json_loads json_dumps (resp : http_response) :
  status_code resp = 200%Z ->
  portfolio_report json_loads json_dumps resp
  = match json_loads (text resp) with
    | None => Uncaught JSONDecodeError
    | Some v => Exit0 (json_dumps v 2 +:+ newline)
    end.
Proof. intros H. unfold portfolio_report. rewrite H. reflexivity. Qed.

(** C7, as stated, does not hold.  Status 204 is a 2xx success, yet both
    commands print their failure line to standard error and exit with
    code 1: the driver compares the status with 200. *)
Lemma cli_fails_on_204 :
  is_2xx (status_code no_content) = true
  /\ (forall json_loads py_str,
        login_report json_loads py_str no_content
        = SystemExit1 ("Login failed (204): " +:+ newline))
  /\ (forall json_loads json_dumps,
        portfolio_report json_loads json_dumps no_content
        = SystemExit1 ("Request failed (204): " +:+ newline))
  /\ exit_code (SystemExit1 ("Login failed (204): " +:+ newline)) = 1%Z.
Proof.
  split; [reflexivity|]. split; [|split; [|reflexivity]].
  - intros json_loads py_str. apply login_report_failure. discriminate.
  - intros json_loads json_dumps. apply portfolio_report_failure. discriminate.
Qed.

(** C7, amended.  Once the HTTP call has returned a response, each command
    ends through [SystemExit(1)] exactly when the status is not 200, having
    written to standard error one line that holds the status and the raw
    body ("Login failed (<status>): <body>", "Request failed (<status>):
    <body>").  On status 200, [login] prints the token of a JSON object body
    and [portfolio] prints the JSON body indented by 2, both to standard
    output with exit code 0. *)
Theorem cli_fails_iff_not_200
    (requests_post : string -> json -> option http_response)
    (requests_get : string -> gmap string string -> option http_response)
    (json_loads : string -> option json) (json_dumps : json -> nat -> string)
    (py_str : json -> string) (resp : http_response) :
  ((exists err, login_report json_loads py_str resp = SystemExit1 err)
     <-> status_code resp <> 200%Z)
  /\ ((exists err, portfolio_report json_loads json_dumps resp = SystemExit1 err)
        <-> status_code resp <> 200%Z)
  /\ (status_code resp <> 200%Z ->
      login_report json_loads py_str resp
      = SystemExit1 ("Login failed (" +:+ pretty (status_code resp) +:+ "): "
                     +:+ text resp +:+ newline)
      /\ portfolio_report json_loads json_dumps resp
         = SystemExit1 ("Request failed (" +:+ pretty (status_code resp) +:+ "): "
                        +:+ text resp +:+ newline)
      /\ exit_code (login_report json_loads py_str resp) = 1%Z
      /\ exit_code (portfolio_report json_loads json_dumps resp) = 1%Z)
  /\ (forall d token,
        status_code resp = 200%Z ->
        json_loads (text resp) = Some (JObj d) ->
        d !! "token" = Some (JStr token) ->
        login_report json_loads py_str resp = Exit0 (token +:+ newline))
  /\ (forall v,
        status_code resp = 200%Z ->
        json_loads (text resp) = Some v ->
        portfolio_report json_loads json_dumps resp = Exit0 (json_dumps v 2 +:+ newline))
  /\ (forall api_base user password,
        requests_post (api_base +:+ "/login")
          (JObj (<["username" := JStr user]> (<["password" := JStr password]> ∅)))
        = Some resp ->
        login requests_post json_loads py_str api_base user password
        = login_report json_loads py_str resp)
  /\ (forall api_base token,
        requests_get (api_base +:+ "/portfolio") {["Authorization" := "Bearer " +:+ token]}
        = Some resp ->
        portfolio requests_get json_loads json_dumps api_base token
        = portfolio_report json_loads json_dumps resp).
Proof.
  assert (Hl : (exists err, login_report json_loads py_str resp = SystemExit1 err)
               <-> status_code resp <> 200%Z).
  { split.
    - intros [err He] H200. rewrite (login_report_200 _ _ _ H200) in He.
      destruct (json_loads (text resp)) as [[]|]; discriminate He.
    - intros Hne. eexists. apply login_report_failure, Hne. }
  assert (Hp : (exists err, portfolio_report json_loads json_dumps resp = SystemExit1 err)
               <-> status_code resp <> 200%Z).
  { split.
    - intros [err He] H200. rewrite (portfolio_report_200 _ _ _ H200) in He.
      destruct (json_loads (text resp)); discriminate He.
    - intros Hne. eexists. apply portfolio_report_failure, Hne. }
  split; [exact Hl|]. split; [exact Hp|].
  split; [|split; [|split; [|split]]].
  - intros Hne.
    rewrite (login_report_failure json_loads py_str resp Hne),
            (portfolio_report_failure json_loads json_dumps resp Hne).
    repeat split.
  - intros d token H200 Hj Ht.
    rewrite (login_report_200 _ _ _ H200), Hj, Ht. reflexivity.
  - intros v H200 Hj.
    rewrite (portfolio_report_200 _ _ _ H200), Hj. reflexivity.
  - intros api_base user password Hr. unfold login. rewrite Hr. reflexivity.
  - intros api_base token Hr. unfold portfolio. rewrite Hr. reflexivity.
Qed.

End CliClaims.

(** ** Further properties of the backend *)

Module BackendFacts.
Import App AppFacts Examples.

(** The backend answers 200 or 401, or raises (500): against it, a status
    is a 2xx success exactly when it is 200. *)
Theorem serve_status (st : server) (r : http_request) :
  (status_of (serve st r).2 = 200%Z \/ status_of (serve st r).2 = 401%Z
   \/ status_of (serve st r).2 = 500%Z)
  /\ (Cli.is_2xx (status_of (serve st r).2) = true <-> status_of (serve st r).2 = 200%Z).
Proof.
  assert (H : status_of (serve st r).2 = 200%Z \/ status_of (serve st r).2 = 401%Z
              \/ status_of (serve st r).2 = 500%Z).
  { destruct r as [rq|rq]; cbn [serve].
    - unfold login. destruct (login_data rq); auto.
      destruct (negb _); [auto|].
      destruct (Secrets.token_hex 16 (urandom st)). auto.
    - unfold portfolio. destruct (negb _); auto. }
  split; [exact H|].
  destruct H as [-> | [-> | ->]]; split; (reflexivity || discriminate).
Qed.

(** A body that decodes to a true value other than an object makes [login]
    raise: [data.get] does not exist.  The process state is unchanged and the
    client sees status 500. *)
Theorem login_non_object_raises (st : server) (rq : request) (v : json) :
  req_body rq = Json v ->
  truthy v = true ->
  (forall d, v <> JObj d) ->
  login st rq = (st, Raised AttributeError)
  /\ status_of (login st rq).2 = 500%Z.
Proof.
  intros Hb Ht Hv.
  assert (Hd : login_data rq = v).
  { unfold login_data, get_json_silent. rewrite Hb. apply py_or_truthy, Ht. }
  assert (Hl : login st rq = (st, Raised AttributeError)).
  { apply login_raises. intros d. rewrite Hd. apply Hv. }
  split; [exact Hl|]. rewrite Hl. reflexivity.
Qed.

Lemma login_non_object_raises_witness :
  (req_body array_body = Json (JArr [JInt 1]) /\ truthy (JArr [JInt 1]) = true)
  /\ login (start counting) array_body = (start counting, Raised AttributeError).
Proof.
  split; [split; reflexivity|].
  exact (proj1 (login_non_object_raises (start counting) array_body (JArr [JInt 1])
                  eq_refl eq_refl ltac:(discriminate))).
Defined.

End BackendFacts.

(** ** Stripping *)

Module StringFacts.
Import PyStr.

Lemma append_cons (c : ascii) (a b : string) : String c a +:+ b = String c (a +:+ b).
Proof. reflexivity. Qed.

Lemma append_empty_r (s : string) : s +:+ "" = s.
Proof.
  induction s as [|c s IH]; [reflexivity|].
  change (String c (s +:+ "") = String c s). rewrite IH. reflexivity.
Qed.

Lemma append_assoc (a b c : string) : (a +:+ b) +:+ c = a +:+ (b +:+ c).
Proof.
  induction a as [|x a IH]; [reflexivity|].
  change (String x ((a +:+ b) +:+ c) = String x (a +:+ (b +:+ c))).
  rewrite IH. reflexivity.
Qed.

Lemma rstrip_cons_nonspace (c : ascii) (s : string) :
  isspace c = false -> rstrip (String c s) = String c (rstrip s).
Proof. intros Hc. cbn [rstrip]. rewrite Hc. destruct (rstrip s); reflexivity. Qed.

End StringFacts.

(** ** The allowed origins *)

Module ConfigFacts.
Import Config.

Lemma truthy_list_nil {A : Type} (l : list A) : truthy l = false <-> l = [].
Proof. destruct l; cbv [truthy list_truthy]; cbn; split; congruence. Qed.

Lemma truthy_list_cons {A : Type} (x : A) (l : list A) : truthy (x :: l) = true.
Proof. reflexivity. Qed.

Lemma rstrip_keeps_head (c : N) (s : list N) :
  isspace c = false -> rstrip (c :: s) = c :: rstrip s.
Proof. intros Hc. cbn [rstrip]. rewrite Hc. destruct (rstrip s); reflexivity. Qed.

Lemma rstrip_idem (s : list N) : rstrip (rstrip s) = rstrip s.
Proof.
  induction s as [|c s IH]; [reflexivity|].
  cbn [rstrip]. destruct (rstrip s) as [|a r] eqn:E.
  - destruct (isspace c) eqn:Hc; [reflexivity|].
    cbn [rstrip]. rewrite Hc. reflexivity.
  - change (rstrip (c :: a :: r))
      with (match rstrip (a :: r) with
            | [] => if isspace c then [] else [c]
            | a' :: r' => c :: a' :: r'
            end).
    rewrite IH. reflexivity.
Qed.

Lemma lstrip_head (s : list N) :
  lstrip s = [] \/ exists c s', lstrip s = c :: s' /\ isspace c = false.
Proof.
  induction s as [|c s IH]; [left; reflexivity|].
  cbn [lstrip]. destruct (isspace c) eqn:Hc; [exact IH|]. right. eauto.
Qed.

(** [strip] leaves nothing to strip. *)
Lemma strip_idem (s : list N) : strip (strip s) = strip s.
Proof.
  unfold strip. destruct (lstrip_head s) as [-> | (c & s' & -> & Hc)]; [reflexivity|].
  rewrite (rstrip_keeps_head c s' Hc). cbn [lstrip]. rewrite Hc.
  rewrite (rstrip_keeps_head c _ Hc), rstrip_idem. reflexivity.
Qed.

(** What [strip] returns has no whitespace at either end. *)
Lemma strip_ends (s : list N) :
  (forall c r, strip s = c :: r -> isspace c = false)
  /\ (forall r c, strip s = (r ++ [c])%list -> isspace c = false).
Proof.
  split.
  - unfold strip. destruct (lstrip_head s) as [-> | (a & s' & -> & Ha)]; [discriminate|].
    rewrite (rstrip_keeps_head a s' Ha). intros c r [= <- _]. exact Ha.
  - unfold strip. generalize (lstrip s). clear s.
    intros s. induction s as [|a s IH]; intros r c.
    + destruct r; discriminate.
    + cbn [rstrip]. destruct (rstrip s) as [|b t] eqn:E.
      * destruct (isspace a) eqn:Ha; [destruct r; discriminate|].
        destruct r as [|x [|y r]]; [|discriminate..]. intros [= <-]. exact Ha.
      * destruct r as [|x r]; [discriminate|].
        change ((x :: r) ++ [c])%list with (x :: (r ++ [c]))%list.
        intros [= _ H]. exact (IH r c H).
Qed.

Lemma lstrip_blank_prefix (pad s : list N) :
  lstrip pad = [] -> lstrip (pad ++ s) = lstrip s.
Proof.
  induction pad as [|c pad IH]; [reflexivity|].
  change ((c :: pad) ++ s)%list with (c :: (pad ++ s))%list.
  cbn [lstrip]. destruct (isspace c); [exact IH | discriminate].
Qed.

Lemma strip_blank_prefix (pad s : list N) :
  lstrip pad = [] -> strip (pad ++ s) = strip s.
Proof. intros H. unfold strip. rewrite (lstrip_blank_prefix pad s H). reflexivity. Qed.

Lemma contains_lstrip (c : N) (s : list N) :
  contains c s = false -> contains c (lstrip s) = false.
Proof.
  induction s as [|a s IH]; [reflexivity|].
  cbn [lstrip]. destruct (isspace a); [|auto].
  cbn [contains]. intros [_ H]%orb_false_iff. auto.
Qed.

Lemma contains_rstrip (c : N) (s : list N) :
  contains c s = false -> contains c (rstrip s) = false.
Proof.
  induction s as [|a s IH]; [reflexivity|].
  cbn [contains]. intros [Ha Hs]%orb_false_iff. specialize (IH Hs).
  cbn [rstrip]. destruct (rstrip s) as [|b r].
  - destruct (isspace a); [reflexivity|]. cbn [contains]. rewrite Ha. reflexivity.
  - cbn [contains] in *. rewrite Ha. exact IH.
Qed.

Lemma contains_strip (c : N) (s : list N) :
  contains c s = false -> contains c (strip s) = false.
Proof. intros H. apply contains_rstrip, contains_lstrip, H. Qed.

Lemma blank_has_no_comma (pad : list N) :
  lstrip pad = [] -> contains comma pad = false.
Proof.
  induction pad as [|c pad IH]; [reflexivity|].
  cbn [lstrip contains]. destruct (isspace c) eqn:Hc; [|discriminate].
  intros H. rewrite (IH H), orb_false_r.
  destruct (N.eqb_spec c comma) as [->|]; [discriminate Hc | reflexivity].
Qed.

Lemma split_not_nil (sep : N) (s : list N) : split sep s <> [].
Proof.
  destruct s as [|c s]; [discriminate|]. cbn [split].
  destruct (c =? sep)%N; [discriminate|]. destruct (split sep s); discriminate.
Qed.

(** No piece holds the separator. *)
Lemma split_pieces (sep : N) (s : list N) :
  Forall (fun piece => contains sep piece = false) (split sep s).
Proof.
  induction s as [|c s IH]; [repeat constructor|].
  cbn [split]. destruct (c =? sep)%N eqn:Hc.
  - constructor; [reflexivity | exact IH].
  - destruct (split sep s) as [|piece pieces].
    + repeat constructor. cbn [contains]. rewrite Hc. reflexivity.
    + inversion IH as [|? ? Hp Hps]; subst. constructor; [|exact Hps].
      cbn [contains]. rewrite Hc, Hp. reflexivity.
Qed.

Lemma split_prefix (sep : N) (p s : list N) :
  contains sep p = false ->
  split sep (p ++ s)
  = match split sep s with
    | [] => []
    | piece :: pieces => (p ++ piece)%list :: pieces
    end.
Proof.
  induction p as [|c p IH]; intros Hp.
  - change ([] ++ s)%list with s. destruct (split sep s) eqn:E; [|reflexivity].
    destruct (split_not_nil sep s E).
  - cbn [contains] in Hp. apply orb_false_iff in Hp as [Hc Hp].
    change ((c :: p) ++ s)%list with (c :: (p ++ s))%list.
    cbn [split]. rewrite Hc, (IH Hp).
    destruct (split sep s) eqn:E; [destruct (split_not_nil sep s E) | reflexivity].
Qed.

Lemma split_whole (sep : N) (s : list N) :
  contains sep s = false -> split sep s = [s].
Proof.
  intros H. rewrite <- (app_nil_r s) at 1.
  rewrite (split_prefix sep s [] H). cbn [split]. rewrite app_nil_r. reflexivity.
Qed.

Lemma split_at (sep : N) (p s : list N) :
  contains sep p = false ->
  split sep (p ++ sep :: s) = p :: split sep s.
Proof.
  intros H. rewrite (split_prefix sep p _ H). cbn [split].
  rewrite N.eqb_refl, app_nil_r. reflexivity.
Qed.

Lemma kept_pieces (pieces : list (list N)) :
  Forall (fun piece => contains comma piece = false) pieces ->
  Forall (fun o => o <> [] /\ strip o = o /\ contains comma o = false)
         (map strip (List.filter (fun o => truthy (strip o)) pieces)).
Proof.
  induction 1 as [|piece pieces Hp _ IH]; [constructor|].
  cbn [List.filter]. destruct (truthy (strip piece)) eqn:Ht; [|exact IH].
  cbn [map]. constructor; [|exact IH]. split; [|split].
  - intros E. rewrite E in Ht. discriminate Ht.
  - apply strip_idem.
  - apply contains_strip, Hp.
Qed.

Lemma blank_pieces (pieces : list (list N)) :
  Forall (fun piece => strip piece = []) pieces ->
  List.filter (fun o => truthy (strip o)) pieces = [].
Proof.
  induction 1 as [|piece pieces Hp _ IH]; [reflexivity|].
  cbn [List.filter]. rewrite Hp, IH. reflexivity.
Qed.

Lemma clean_pieces (pad : list N) (os : list (list N)) :
  lstrip pad = [] ->
  Forall (fun o => o <> [] /\ strip o = o /\ contains comma o = false) os ->
  map strip (List.filter (fun o => truthy (strip o)) (map (app pad) os)) = os.
Proof.
  intros Hpad. induction 1 as [|o os (Hne & Hs & _) _ IH]; [reflexivity|].
  assert (Ht : truthy o = true) by (destruct o; [congruence | reflexivity]).
  cbn [map List.filter]. rewrite (strip_blank_prefix pad o Hpad), Hs, Ht.
  cbn [map]. rewrite IH, (strip_blank_prefix pad o Hpad), Hs. reflexivity.
Qed.

Lemma split_join (pad : list N) (os : list (list N)) (o : list N) :
  lstrip pad = [] ->
  Forall (fun o => contains comma o = false) (o :: os) ->
  split comma (join (comma :: pad) (o :: os)) = o :: map (app pad) os.
Proof.
  intros Hpad. revert o. induction os as [|o' os IH]; intros o Hall.
  - inversion Hall; subst. apply split_whole. assumption.
  - inversion Hall as [|? ? Ho Hrest]; subst.
    change (join (comma :: pad) (o :: o' :: os))
      with (o ++ comma :: (pad ++ join (comma :: pad) (o' :: os)))%list.
    rewrite (split_at _ _ _ Ho), (split_prefix _ pad _ (blank_has_no_comma pad Hpad)).
    rewrite (IH o' Hrest). reflexivity.
Qed.

(** [ORIGINS] is never empty, and each of its entries is a non-empty string
    that neither starts nor ends with a whitespace character, is unchanged by
    [strip], and holds no comma, whatever the environment holds. *)
Theorem origins_well_formed (FRONTEND_ORIGINS : option (list N)) :
  ORIGINS FRONTEND_ORIGINS <> []
  /\ Forall (fun o => o <> [] /\ strip o = o /\ contains comma o = false
                     /\ (forall c r, o = c :: r -> isspace c = false)
                     /\ (forall r c, o = (r ++ [c])%list -> isspace c = false))
            (ORIGINS FRONTEND_ORIGINS).
Proof.
  assert (Hall : Forall (fun o => o <> [] /\ strip o = o /\ contains comma o = false)
                   (ORIGINS FRONTEND_ORIGINS)).
  { unfold ORIGINS, py_or.
    set (kept := map strip (List.filter _ _)).
    destruct (truthy kept) eqn:Ht.
    - apply kept_pieces, split_pieces.
    - repeat constructor; discriminate. }
  split.
  - unfold ORIGINS, py_or.
    set (kept := map strip (List.filter _ _)).
    destruct (truthy kept) eqn:Ht; [|discriminate].
    intros E. rewrite E in Ht. discriminate Ht.
  - eapply Forall_impl; [exact Hall|].
    intros o (Hne & Hs & Hc). split; [exact Hne|]. split; [exact Hs|]. split; [exact Hc|].
    rewrite <- Hs. apply strip_ends.
Qed.

(** When the variable is unset, or every comma-separated piece of its value
    consists of whitespace only (Unicode whitespace included), [ORIGINS] is
    the two localhost defaults. *)
Theorem origins_default_when_blank (FRONTEND_ORIGINS : option (list N)) :
  FRONTEND_ORIGINS = None
  \/ (exists env, FRONTEND_ORIGINS = Some env
                  /\ Forall (fun piece => strip piece = []) (split comma env)) ->
  ORIGINS FRONTEND_ORIGINS = DEFAULT_ORIGINS.
Proof.
  intros [-> | (env & -> & Hblank)]; [reflexivity|].
  unfold ORIGINS. change (default [] (Some env)) with env.
  rewrite (blank_pieces _ Hblank). reflexivity.
Qed.

Lemma origins_default_when_blank_witness :
  Forall (fun piece => strip piece = []) (split comma [32; 44; 8195; 44]%N)
  /\ ORIGINS (Some [32; 44; 8195; 44]%N) = DEFAULT_ORIGINS.
Proof.
  assert (H : Forall (fun piece => strip piece = []) (split comma [32; 44; 8195; 44]%N))
    by (repeat constructor).
  split; [exact H|].
  apply origins_default_when_blank. right. exists [32; 44; 8195; 44]%N.
  split; [reflexivity | exact H].
Defined.

(** Round trip: a non-empty list of origins, each non-empty, unchanged by
    [strip] and without a comma, joined with a comma followed by any run of
    whitespace, is read back as that list, in that order; the defaults are
    not added. *)
Theorem origins_round_trip (pad : list N) (os : list (list N)) :
  lstrip pad = [] ->
  os <> [] ->
  Forall (fun o => o <> [] /\ strip o = o /\ contains comma o = false) os ->
  ORIGINS (Some (join (comma :: pad) os)) = os.
Proof.
  intros Hpad Hne Hall. destruct os as [|o os]; [congruence|].
  unfold ORIGINS.
  change (default [] (Some ?e)) with e.
  rewrite (split_join pad os o Hpad)
    by (eapply Forall_impl; [exact Hall | intros ? (_ & _ & H); exact H]).
  inversion Hall as [|? ? (Ho & Hs & _) Hrest]; subst.
  assert (Ht : truthy o = true) by (destruct o; [congruence | reflexivity]).
  cbn [List.filter]. rewrite Hs, Ht. cbn [map].
  rewrite (clean_pieces pad os Hpad Hrest), Hs. reflexivity.
Qed.

Lemma origins_round_trip_witness :
  ORIGINS (Some (str "https://a.example, http://b.example:3000"))
  = [str "https://a.example"; str "http://b.example:3000"].
Proof.
  apply (origins_round_trip [32%N] [str "https://a.example"; str "http://b.example:3000"]).
  - reflexivity.
  - discriminate.
  - repeat constructor; discriminate.
Defined.

End ConfigFacts.

(** ** The driver's API base *)

Module ApiBaseFacts.
Import PyStr Cli StringFacts.

Lemma append_slash_not_empty (p : string) : p +:+ "/" <> "".
Proof. destruct p; discriminate. Qed.

Lemma rstrip_char_cons (x c : ascii) (s : string) :
  rstrip_char x (String c s)
  = match rstrip_char x s with
    | EmptyString => if Ascii.eqb c x then EmptyString else String c EmptyString
    | r => String c r
    end.
Proof. reflexivity. Qed.

Lemma cli_no_trailing_slash (s p : string) : cli s <> p +:+ "/".
Proof.
  unfold cli. revert p. induction s as [|c s IH]; intros p.
  - intros H. symmetry in H. exact (append_slash_not_empty p H).
  - rewrite rstrip_char_cons. destruct (rstrip_char "/" s) as [|a r] eqn:E.
    + destruct (Ascii.eqb_spec c "/"%char) as [->|Hc].
      * intros H. symmetry in H. exact (append_slash_not_empty p H).
      * destruct p as [|b p].
        -- intros [= H]. exact (Hc H).
        -- rewrite append_cons. intros [= _ H]. symmetry in H.
           exact (append_slash_not_empty p H).
    + destruct p as [|b p]; [discriminate|].
      rewrite append_cons. intros [= _ H]. exact (IH p H).
Qed.

Lemma cli_append_slash (s : string) : cli (s +:+ "/") = cli s.
Proof.
  unfold cli. induction s as [|c s IH]; [reflexivity|].
  rewrite append_cons, !rstrip_char_cons, IH. reflexivity.
Qed.

Lemma cli_tail (s : string) : exists tail, s = cli s +:+ tail /\ cli tail = "".
Proof.
  unfold cli. induction s as [|c s (tail & Hs & Ht)]; [exists ""; split; reflexivity|].
  rewrite rstrip_char_cons. destruct (rstrip_char "/" s) as [|a r] eqn:E.
  - destruct (Ascii.eqb_spec c "/"%char) as [->|Hc].
    + exists (String "/" s). split; [reflexivity|].
      rewrite rstrip_char_cons, E. reflexivity.
    + exists s. split; [reflexivity | exact E].
  - exists tail. split; [|exact Ht].
    rewrite append_cons. f_equal. exact Hs.
Qed.

(** Trailing slashes of [--api-base] do not matter.  [cli] keeps the base up
    to its last character that is not a slash: what it drops is slashes
    only, the result never ends in a slash, one more trailing slash changes
    nothing, and so the URL built from the base is the same. *)
Theorem api_base_trailing_slashes (api_base : string) :
  (exists tail, api_base = cli api_base +:+ tail /\ cli tail = "")
  /\ (forall p, cli api_base <> p +:+ "/")
  /\ cli (api_base +:+ "/") = cli api_base
  /\ cli (cli api_base) = cli api_base
  /\ (forall path, cli (api_base +:+ "/") +:+ path = cli api_base +:+ path).
Proof.
  split; [apply cli_tail|]. split; [apply cli_no_trailing_slash|].
  split; [apply cli_append_slash|]. split.
  - unfold cli. induction api_base as [|c s IH]; [reflexivity|].
    rewrite rstrip_char_cons. destruct (rstrip_char "/" s) as [|a r] eqn:E.
    + destruct (Ascii.eqb c "/") eqn:Hc; [reflexivity|].
      rewrite rstrip_char_cons. cbn [rstrip_char]. rewrite Hc. reflexivity.
    + rewrite rstrip_char_cons, IH. reflexivity.
  - intros path. rewrite cli_append_slash. reflexivity.
Qed.

End ApiBaseFacts.

(** ** Tokens and sessions *)

Module SessionFacts.
Import App AppFacts Examples Wire.

Lemma unhex_hex_byte (b : byte) (rest : string) :
  unhex (Secrets.hex_byte b +:+ rest)
  = match unhex rest with Some bs => Some (b :: bs) | None => None end.
Proof.
  destruct (SecretsFacts.hex_byte_shape b) as (c1 & c2 & E & _).
  assert (Hd : match unhex_digit c1, unhex_digit c2 with
               | Some hi, Some lo => Byte.of_N (16 * hi + lo)
               | _, _ => None
               end = Some b).
  { revert E. destruct b; intros [= <- <-]; vm_compute; reflexivity. }
  rewrite E. change (String c1 (String c2 "") +:+ rest) with (String c1 (String c2 rest)).
  cbn [unhex]. destruct (unhex_digit c1), (unhex_digit c2); try discriminate Hd.
  destruct (unhex rest); [rewrite Hd|]; reflexivity.
Qed.

(** [hex] can be undone, so it loses nothing. *)
Lemma unhex_hex (bs : list byte) : unhex (Secrets.hex bs) = Some bs.
Proof.
  induction bs as [|b bs IH]; [reflexivity|].
  cbn [Secrets.hex]. rewrite unhex_hex_byte, IH. reflexivity.
Qed.

Lemma hex_inj (bs1 bs2 : list byte) : Secrets.hex bs1 = Secrets.hex bs2 -> bs1 = bs2.
Proof.
  intros H. apply (f_equal unhex) in H. rewrite !unhex_hex in H. congruence.
Qed.

Lemma token_hex_eq (n : nat) (src1 src2 : Secrets.entropy) :
  (Secrets.token_hex n src1).1 = (Secrets.token_hex n src2).1
  <-> forall i, (i < n)%nat -> src1 i = src2 i.
Proof.
  unfold Secrets.token_hex, Secrets.token_bytes. cbn [fst]. split.
  - intros H%hex_inj i Hi.
    assert (Hl : map src1 (seq 0 n) !! i = map src2 (seq 0 n) !! i) by (rewrite H; reflexivity).
    rewrite !list_lookup_fmap, lookup_seq_lt in Hl by exact Hi.
    cbn in Hl. congruence.
  - intros H. f_equal. apply map_ext_in. intros i [_ Hi]%in_seq. apply H. lia.
Qed.

(** A login hands out a token only on the accepting path, and the token is
    the hex of the next 16 bytes of entropy. *)
Lemma login_token (st : server) (rq : request) (tok : string) :
  token_of (login st rq).2 = Some tok ->
  exists d,
    login_data rq = JObj d
    /\ mock_login (dict_get d "username") (dict_get d "password") = true
    /\ tok = (Secrets.token_hex 16 (urandom st)).1.
Proof.
  destruct (login_data rq) as [| | | | | |d] eqn:Hd;
    try (rewrite login_raises by (intros d'; rewrite Hd; discriminate); discriminate).
  destruct (mock_login (dict_get d "username") (dict_get d "password")) eqn:Hm.
  - rewrite (login_accepts st rq d Hd Hm). cbn [snd].
    rewrite token_of_login_ok. intros [= <-]. eauto.
  - rewrite (login_rejects st rq d Hd Hm). discriminate.
Qed.

Lemma not_hex_unauthorized (src : Secrets.entropy) (trace : list http_request) (tok : string) :
  Secrets.all_hex tok = false ->
  validate_token (run (start src) trace).1 (Some tok) = false.
Proof.
  intros Hx. apply not_true_is_false. intros Hv.
  apply validate_token_true in Hv as (t & [= <-] & Hin).
  apply TraceFacts.started_dom, TraceFacts.issued_shape in Hin as [_ Hh]. congruence.
Qed.

(** Two logins in a row.  The second returns the token of the first exactly
    when it draws the same 16 bytes.  If the tokens differ the first session
    is untouched and both tokens are valid; if they coincide, no uniqueness
    check being made, the one token is rebound to the second username. *)
Theorem second_login (st : server) (rq1 rq2 : request) (tok1 tok2 : string) :
  token_of (login st rq1).2 = Some tok1 ->
  token_of (login (login st rq1).1 rq2).2 = Some tok2 ->
  (tok1 = tok2 <-> forall i, (i < 16)%nat -> urandom st i = urandom st (16 + i)%nat)
  /\ (exists d1, login_data rq1 = JObj d1
        /\ SESSIONS (login st rq1).1 !! tok1 = Some (dict_get d1 "username"))
  /\ (exists d2, login_data rq2 = JObj d2
        /\ SESSIONS (login (login st rq1).1 rq2).1 !! tok2 = Some (dict_get d2 "username"))
  /\ (tok1 <> tok2 ->
      SESSIONS (login (login st rq1).1 rq2).1 !! tok1 = SESSIONS (login st rq1).1 !! tok1)
  /\ validate_token (login (login st rq1).1 rq2).1 (Some tok1) = true
  /\ validate_token (login (login st rq1).1 rq2).1 (Some tok2) = true.
Proof.
  intros H1 H2.
  destruct (login_token _ _ _ H1) as (d1 & Hd1 & Hm1 & E1).
  destruct (login_token _ _ _ H2) as (d2 & Hd2 & Hm2 & E2).
  rewrite (login_accepts _ rq2 d2 Hd2 Hm2) in *.
  rewrite (login_accepts st rq1 d1 Hd1 Hm1) in *.
  cbn [fst snd SESSIONS urandom] in *.
  assert (S1 : SESSIONS (login st rq1).1 !! tok1 = Some (dict_get d1 "username")).
  { rewrite (login_accepts st rq1 d1 Hd1 Hm1), E1. cbn [fst SESSIONS].
    apply lookup_insert_eq. }
  rewrite (login_accepts st rq1 d1 Hd1 Hm1) in S1. cbn [fst SESSIONS] in S1.
  split; [|split; [|split; [|split; [|split]]]].
  - rewrite E1, E2. apply token_hex_eq.
  - exists d1. split; [exact Hd1|]. rewrite E1. apply lookup_insert_eq.
  - exists d2. split; [exact Hd2|]. rewrite E2. apply lookup_insert_eq.
  - intros Hne. rewrite <- E2. apply lookup_insert_ne. congruence.
  - apply validate_token_lookup. cbn [SESSIONS]. rewrite <- E2.
    destruct (decide (tok2 = tok1)) as [->|Hne].
    + rewrite lookup_insert_eq. eauto.
    + rewrite lookup_insert_ne by exact Hne. rewrite <- E1. rewrite lookup_insert_eq. eauto.
  - apply validate_token_lookup. cbn [SESSIONS]. rewrite <- E2, lookup_insert_eq. eauto.
Qed.

Lemma second_login_witness :
  (token_of (login (start counting) alice).2 = Some token0
   /\ token_of (login (login (start counting) alice).1 five_true).2
      = Some "101112131415161718191a1b1c1d1e1f")
  /\ (token0 <> "101112131415161718191a1b1c1d1e1f" ->
      SESSIONS (login (login (start counting) alice).1 five_true).1 !! token0
      = SESSIONS (login (start counting) alice).1 !! token0).
Proof.
  assert (H1 : token_of (login (start counting) alice).2 = Some token0) by reflexivity.
  assert (H2 : token_of (login (login (start counting) alice).1 five_true).2
               = Some "101112131415161718191a1b1c1d1e1f") by reflexivity.
  split; [split; [exact H1 | exact H2]|].
  exact (proj1 (proj2 (proj2 (proj2
           (second_login (start counting) alice five_true _ _ H1 H2))))).
Defined.

(** The cookie a successful login sets is the session cookie holding the
    token of the response body (HttpOnly, SameSite=Lax, not Secure, four
    hours), and a request that sends it back is served at any later time:
    after any sequence of further requests, and whatever its Authorization
    header says. *)
Theorem login_cookie_authorizes (st : server) (rq : request) (tok : string) :
  token_of (login st rq).2 = Some tok ->
  exists r,
    (login st rq).2 = Responded r
    /\ set_cookies r
       = {[SESSION_COOKIE := {| ck_value := tok; ck_httponly := true;
                                ck_samesite := "Lax"; ck_secure := false;
                                ck_max_age := 14400 |}]}
    /\ (forall trace rq', cookies rq' = ck_value <$> set_cookies r ->
          portfolio (run (login st rq).1 trace).1 rq'
          = ((run (login st rq).1 trace).1,
             Responded (jsonify (mock_fetch_portfolio ()) 200)))
    /\ (forall trace,
          portfolio (run (login st rq).1 trace).1 (with_cookies_of r)
          = ((run (login st rq).1 trace).1,
             Responded (jsonify (mock_fetch_portfolio ()) 200))).
Proof.
  intros H. destruct (login_token _ _ _ H) as (d & Hd & Hm & E).
  assert (Hne : tok <> "").
  { intros ->. pose proof (SecretsFacts.token_hex_length 16 (urandom st)) as Hl.
    rewrite <- E in Hl. discriminate Hl. }
  assert (Hkey : forall trace, tok ∈ dom (SESSIONS (run (login st rq).1 trace).1)).
  { intros trace. rewrite TraceFacts.run_dom, (login_accepts st rq d Hd Hm).
    cbn [fst SESSIONS]. rewrite <- E, dom_insert_L. set_solver. }
  rewrite (login_accepts st rq d Hd Hm) in *. cbn [fst snd] in *. rewrite <- E in *.
  exists (login_ok tok). split; [reflexivity|]. split; [reflexivity|].
  assert (Hall : forall trace rq', cookies rq' = ck_value <$> set_cookies (login_ok tok) ->
            portfolio (run {| SESSIONS := <[tok := dict_get d "username"]> (SESSIONS st);
                              urandom := (Secrets.token_hex 16 (urandom st)).2 |} trace).1 rq'
            = ((run {| SESSIONS := <[tok := dict_get d "username"]> (SESSIONS st);
                       urandom := (Secrets.token_hex 16 (urandom st)).2 |} trace).1,
               Responded (jsonify (mock_fetch_portfolio ()) 200))).
  { intros trace rq' Hc. apply portfolio_authorized.
    rewrite (presented_token_cookie rq' tok); [| |exact Hne].
    - apply validate_token_true. exists tok. split; [reflexivity | apply Hkey].
    - rewrite Hc. unfold login_ok, set_cookie, jsonify. cbn [set_cookies].
      rewrite lookup_fmap, lookup_insert_eq. reflexivity. }
  split; [exact Hall|]. intros trace. apply Hall. reflexivity.
Qed.

Lemma login_cookie_authorizes_witness :
  token_of (login (start counting) alice).2 = Some token0
  /\ exists r,
       (login (start counting) alice).2 = Responded r
       /\ portfolio (run (login (start counting) alice).1
                      [POST_api_login five_true; GET_api_portfolio raw_header]).1
            (with_cookies_of r)
          = ((run (login (start counting) alice).1
                [POST_api_login five_true; GET_api_portfolio raw_header]).1,
             Responded (jsonify (mock_fetch_portfolio ()) 200)).
Proof.
  assert (H : token_of (login (start counting) alice).2 = Some token0) by reflexivity.
  split; [exact H|].
  destruct (login_cookie_authorizes (start counting) alice token0 H) as (r & Hr & _ & _ & Hp).
  exists r. split; [exact Hr | apply Hp].
Defined.

(** The scheme of the Authorization header is matched exactly and removed
    once.  In a process served from its start, a request without a session
    cookie whose header reads "bearer <anything>" (lower case) or
    "Bearer Bearer <anything>" is answered 401, even when <anything> is a
    valid token: what is validated still starts with the scheme word. *)
Theorem bearer_scheme_is_exact (src : Secrets.entropy) (trace : list http_request)
    (rq : request) (t : string) :
  cookies rq !! SESSION_COOKIE = None ->
  headers rq !! "Authorization" = Some ("bearer " +:+ t)
  \/ headers rq !! "Authorization" = Some ("Bearer Bearer " +:+ t) ->
  portfolio (run (start src) trace).1 rq
  = ((run (start src) trace).1, Responded unauthorized).
Proof.
  intros Hc Hh. apply portfolio_unauthorized.
  rewrite presented_token_header by (left; exact Hc).
  apply not_hex_unauthorized. unfold bearer_token.
  destruct Hh as [-> | ->]; cbn [default from_option id].
  - change (PyStr.removeprefix "Bearer " ("bearer " +:+ t)) with ("bearer " +:+ t).
    unfold PyStr.strip.
    change (PyStr.lstrip ("bearer " +:+ t)) with ("bearer " +:+ t).
    change ("bearer " +:+ t)
      with (String "b" (String "e" (String "a" (String "r" ("er " +:+ t))))).
    rewrite !StringFacts.rstrip_cons_nonspace by reflexivity. reflexivity.
  - change (PyStr.removeprefix "Bearer " ("Bearer Bearer " +:+ t)) with ("Bearer " +:+ t).
    unfold PyStr.strip.
    change (PyStr.lstrip ("Bearer " +:+ t)) with ("Bearer " +:+ t).
    change ("Bearer " +:+ t) with (String "B" ("earer " +:+ t)).
    rewrite StringFacts.rstrip_cons_nonspace by reflexivity. reflexivity.
Qed.

Lemma bearer_scheme_is_exact_witness :
  (cookies (get None (Some ("bearer " +:+ token0))) !! SESSION_COOKIE = None
   /\ validate_token logged_in (Some token0) = true)
  /\ portfolio (run (start counting) [POST_api_login alice]).1
       (get None (Some ("bearer " +:+ token0)))
     = ((run (start counting) [POST_api_login alice]).1, Responded unauthorized).
Proof.
  split; [split; [reflexivity | exact ExampleFacts.token0_valid]|].
  apply (bearer_scheme_is_exact counting [POST_api_login alice]
           (get None (Some ("bearer " +:+ token0))) token0).
  - reflexivity.
  - left. reflexivity.
Defined.

End SessionFacts.

(** ** The driver against the backend *)

Module EndToEnd.
Import Examples Wire.

Lemma credentials_fields (user password : json) :
  App.dict_get (credentials user password) "username" = user
  /\ App.dict_get (credentials user password) "password" = password.
Proof.
  unfold App.dict_get, credentials. split.
  - rewrite lookup_insert_eq. reflexivity.
  - rewrite lookup_insert_ne by discriminate. rewrite lookup_insert_eq. reflexivity.
Qed.

(** [login] of the driver against [login] of the backend.  With a non-empty
    user and password the command prints the new session's token, which the
    backend has bound to the user, and exits 0.  With an empty user or
    password the backend answers 401, the command prints "Login failed
    (401): <body>" to standard error and exits 1, and no session is
    created. *)
Theorem cli_login_against_backend
    (requests_post : string -> json -> option Cli.http_response)
    (json_loads : string -> option json) (py_str : json -> string)
    (st : App.server) (rq : App.request) (resp : Cli.http_response)
    (api_base user password : string) :
  App.req_body rq = App.Json (JObj (credentials (JStr user) (JStr password))) ->
  requests_post (api_base +:+ "/login")
    (JObj (credentials (JStr user) (JStr password))) = Some resp ->
  delivers json_loads (App.login st rq).2 resp ->
  (user <> "" /\ password <> "" ->
     exists token,
       Cli.login requests_post json_loads py_str api_base user password
       = Cli.Exit0 (token +:+ Cli.newline)
       /\ String.length token = 32%nat
       /\ App.SESSIONS (App.login st rq).1 !! token = Some (JStr user))
  /\ (user = "" \/ password = "" ->
      Cli.login requests_post json_loads py_str api_base user password
      = Cli.SystemExit1 ("Login failed (401): " +:+ Cli.text resp +:+ Cli.newline)
      /\ (App.login st rq).1 = st).
Proof.
  intros Hb Hpost [Hstatus Hbody].
  pose proof (AppFacts.login_data_object rq _ Hb) as Hd.
  destruct (credentials_fields (JStr user) (JStr password)) as [Eu Ep].
  assert (Hcli : Cli.login requests_post json_loads py_str api_base user password
                 = Cli.login_report json_loads py_str resp).
  { unfold Cli.login. fold (credentials (JStr user) (JStr password)).
    rewrite Hpost. reflexivity. }
  rewrite Hcli. split.
  - intros [Hu Hp].
    assert (Hm : App.mock_login (App.dict_get (credentials (JStr user) (JStr password)) "username")
                   (App.dict_get (credentials (JStr user) (JStr password)) "password") = true).
    { rewrite Eu, Ep. apply AppFacts.mock_login_true.
      destruct user, password; try congruence. split; reflexivity. }
    rewrite (AppFacts.login_accepts st rq _ Hd Hm) in *. cbn [fst snd App.SESSIONS] in *.
    exists (Secrets.token_hex 16 (App.urandom st)).1.
    rewrite (CliClaims.login_report_200 _ _ _ Hstatus), (Hbody _ eq_refl).
    unfold App.login_ok, App.set_cookie, App.jsonify. cbn [App.body].
    rewrite lookup_insert_ne by discriminate. rewrite lookup_insert_eq.
    split; [reflexivity|]. split; [apply (SecretsFacts.token_hex_length 16)|].
    rewrite Eu. apply lookup_insert_eq.
  - intros Hempty.
    assert (Hm : App.mock_login (App.dict_get (credentials (JStr user) (JStr password)) "username")
                   (App.dict_get (credentials (JStr user) (JStr password)) "password") = false).
    { rewrite Eu, Ep. apply AppFacts.mock_login_false.
      destruct Hempty as [-> | ->]; [left | right]; reflexivity. }
    rewrite (AppFacts.login_rejects st rq _ Hd Hm) in *. cbn [fst snd] in *.
    split; [|reflexivity].
    rewrite (CliClaims.login_report_failure json_loads py_str resp)
      by (rewrite Hstatus; discriminate).
    rewrite Hstatus. reflexivity.
Qed.

Lemma cli_login_against_backend_witness :
  delivers (fun _ => Some (App.body (App.login_ok token0)))
    (App.login (App.start counting) alice).2 {| Cli.status_code := 200; Cli.text := "ok" |}
  /\ exists token,
       Cli.login (fun _ _ => Some {| Cli.status_code := 200; Cli.text := "ok" |})
         (fun _ => Some (App.body (App.login_ok token0))) (fun _ => "")
         "http://127.0.0.1:5000/api" "alice" "secret"
       = Cli.Exit0 (token +:+ Cli.newline)
       /\ String.length token = 32%nat
       /\ App.SESSIONS (App.login (App.start counting) alice).1 !! token
          = Some (JStr "alice").
Proof.
  assert (Hd : delivers (fun _ => Some (App.body (App.login_ok token0)))
                 (App.login (App.start counting) alice).2
                 {| Cli.status_code := 200; Cli.text := "ok" |}).
  { rewrite ExampleFacts.alice_logs_in. split; [reflexivity|].
    intros r [= <-]. reflexivity. }
  split; [exact Hd|].
  apply (cli_login_against_backend
           (fun _ _ => Some {| Cli.status_code := 200; Cli.text := "ok" |})
           (fun _ => Some (App.body (App.login_ok token0))) (fun _ => "")
           (App.start counting) alice {| Cli.status_code := 200; Cli.text := "ok" |}
           "http://127.0.0.1:5000/api" "alice" "secret" eq_refl eq_refl Hd).
  split; discriminate.
Defined.

(** [portfolio] of the driver, given that the backend sees the header as
    the driver built it: what decides is the token stripped of surrounding
    whitespace. *)
Lemma cli_portfolio_stripped
    (requests_get : string -> gmap string string -> option Cli.http_response)
    (json_loads : string -> option json) (json_dumps : json -> nat -> string)
    (st : App.server) (rq : App.request) (resp : Cli.http_response)
    (api_base token : string) :
  App.cookies rq !! App.SESSION_COOKIE = None ->
  App.headers rq !! "Authorization" = Some ("Bearer " +:+ token) ->
  requests_get (api_base +:+ "/portfolio") {["Authorization" := "Bearer " +:+ token]}
  = Some resp ->
  delivers json_loads (App.portfolio st rq).2 resp ->
  (PyStr.strip token ∈ dom (App.SESSIONS st) ->
     Cli.portfolio requests_get json_loads json_dumps api_base token
     = Cli.Exit0 (json_dumps (App.mock_fetch_portfolio ()) 2 +:+ Cli.newline))
  /\ (PyStr.strip token ∉ dom (App.SESSIONS st) ->
      Cli.portfolio requests_get json_loads json_dumps api_base token
      = Cli.SystemExit1 ("Request failed (401): " +:+ Cli.text resp +:+ Cli.newline)).
Proof.
  intros Hc Hh Hget [Hstatus Hbody].
  assert (Hcli : Cli.portfolio requests_get json_loads json_dumps api_base token
                 = Cli.portfolio_report json_loads json_dumps resp).
  { unfold Cli.portfolio. rewrite Hget. reflexivity. }
  assert (Hp : App.presented_token rq = Some (PyStr.strip token)).
  { rewrite AppFacts.presented_token_header by (left; exact Hc).
    unfold App.bearer_token. rewrite Hh. reflexivity. }
  rewrite Hcli. split; intros Hin.
  - assert (Hv : App.validate_token st (App.presented_token rq) = true)
      by (rewrite Hp; apply AppFacts.validate_token_true; eauto).
    rewrite (AppFacts.portfolio_authorized st rq Hv) in *. cbn [snd] in *.
    rewrite (CliClaims.portfolio_report_200 _ _ _ Hstatus), (Hbody _ eq_refl).
    reflexivity.
  - assert (Hv : App.validate_token st (App.presented_token rq) = false).
    { rewrite Hp. apply not_true_is_false. intros Hv.
      apply AppFacts.validate_token_true in Hv as (t & [= <-] & Ht). exact (Hin Ht). }
    rewrite (AppFacts.portfolio_unauthorized st rq Hv) in *. cbn [snd] in *.
    rewrite (CliClaims.portfolio_report_failure json_loads json_dumps resp)
      by (rewrite Hstatus; discriminate).
    rewrite Hstatus. reflexivity.
Qed.

Lemma visible_not_space (c : ascii) : is_visible c = true -> PyStr.isspace c = false.
Proof.
  destruct c as [b0 b1 b2 b3 b4 b5 b6 b7].
  destruct b0, b1, b2, b3, b4, b5, b6, b7; vm_compute; congruence.
Qed.

Lemma strip_visible (t : string) : visible t = true -> PyStr.strip t = t.
Proof.
  intros Hv. unfold PyStr.strip.
  assert (Hl : PyStr.lstrip t = t).
  { destruct t as [|c t]; [reflexivity|]. cbn [visible] in Hv.
    apply andb_true_iff in Hv as [Hc _].
    cbn [PyStr.lstrip]. rewrite (visible_not_space c Hc). reflexivity. }
  rewrite Hl. clear Hl. induction t as [|c t IH]; [reflexivity|].
  cbn [visible] in Hv. apply andb_true_iff in Hv as [Hc Ht].
  rewrite (StringFacts.rstrip_cons_nonspace c t (visible_not_space c Hc)), (IH Ht).
  reflexivity.
Qed.

(** [portfolio] of the driver against [portfolio] of the backend, for a
    token of printable ASCII characters without whitespace (a header value
    that travels unchanged), the request reaching the backend and its answer
    coming back.  The command prints the snapshot indented by 2 and exits 0
    when the token is a key of the session map; otherwise it prints "Request
    failed (401): <body>" to standard error and exits 1. *)
Theorem cli_portfolio_against_backend
    (requests_get : string -> gmap string string -> option Cli.http_response)
    (json_loads : string -> option json) (json_dumps : json -> nat -> string)
    (st : App.server) (rq : App.request) (resp : Cli.http_response)
    (api_base token : string) :
  visible token = true ->
  token <> "" ->
  App.cookies rq !! App.SESSION_COOKIE = None ->
  App.headers rq !! "Authorization" = Some ("Bearer " +:+ token) ->
  requests_get (api_base +:+ "/portfolio") {["Authorization" := "Bearer " +:+ token]}
  = Some resp ->
  delivers json_loads (App.portfolio st rq).2 resp ->
  (token ∈ dom (App.SESSIONS st) ->
     Cli.portfolio requests_get json_loads json_dumps api_base token
     = Cli.Exit0 (json_dumps (App.mock_fetch_portfolio ()) 2 +:+ Cli.newline))
  /\ (token ∉ dom (App.SESSIONS st) ->
      Cli.portfolio requests_get json_loads json_dumps api_base token
      = Cli.SystemExit1 ("Request failed (401): " +:+ Cli.text resp +:+ Cli.newline)).
Proof.
  intros Hv _ Hc Hh Hget Hd.
  pose proof (cli_portfolio_stripped requests_get json_loads json_dumps st rq resp
                api_base token Hc Hh Hget Hd) as H.
  rewrite (strip_visible token Hv) in H. exact H.
Qed.

Lemma cli_portfolio_against_backend_witness :
  (visible token0 = true /\ token0 <> "" /\ token0 ∈ dom (App.SESSIONS logged_in))
  /\ Cli.portfolio
       (fun _ _ => Some {| Cli.status_code := 200; Cli.text := "ok" |})
       (fun _ => Some (App.mock_fetch_portfolio ())) (fun _ _ => "{}")
       "http://127.0.0.1:5000/api" token0
     = Cli.Exit0 ("{}" +:+ Cli.newline).
Proof.
  assert (Hin : token0 ∈ dom (App.SESSIONS logged_in)).
  { rewrite ExampleFacts.logged_in_sessions, dom_singleton_L.
    apply elem_of_singleton. reflexivity. }
  assert (Hne : token0 <> "") by discriminate.
  split; [split; [reflexivity | split; [exact Hne | exact Hin]]|].
  assert (Hd : delivers (fun _ => Some (App.mock_fetch_portfolio ()))
                 (App.portfolio logged_in (get None (Some ("Bearer " +:+ token0)))).2
                 {| Cli.status_code := 200; Cli.text := "ok" |}).
  { rewrite AppFacts.portfolio_authorized.
    - split; [reflexivity|]. intros r [= <-]. reflexivity.
    - change (App.presented_token (get None (Some ("Bearer " +:+ token0))))
        with (Some token0).
      exact ExampleFacts.token0_valid. }
  exact (proj1 (cli_portfolio_against_backend
                  (fun _ _ => Some {| Cli.status_code := 200; Cli.text := "ok" |})
                  (fun _ => Some (App.mock_fetch_portfolio ())) (fun _ _ => "{}")
                  logged_in (get None (Some ("Bearer " +:+ token0)))
                  {| Cli.status_code := 200; Cli.text := "ok" |}
                  "http://127.0.0.1:5000/api" token0
                  eq_refl Hne eq_refl eq_refl eq_refl Hd) Hin).
Defined.

End EndToEnd.

(** ** What the session map holds *)

Module InvariantFacts.
Import App AppFacts.

Lemma serve_keeps_shape (st : server) (r : http_request) :
  (forall t u, SESSIONS st !! t = Some u ->
     String.length t = 32%nat /\ Secrets.all_hex t = true /\ truthy u = true) ->
  forall t u, SESSIONS (serve st r).1 !! t = Some u ->
    String.length t = 32%nat /\ Secrets.all_hex t = true /\ truthy u = true.
Proof.
  intros Hinv. destruct r as [rq|rq]; cbn [serve].
  - destruct (login_data rq) as [| | | | | |d] eqn:Hd;
      try (rewrite login_raises by (intros d'; rewrite Hd; discriminate); exact Hinv).
    destruct (mock_login (dict_get d "username") (dict_get d "password")) eqn:Hm.
    + rewrite (login_accepts st rq d Hd Hm). cbn [fst SESSIONS]. intros t u.
      destruct (decide ((Secrets.token_hex 16 (urandom st)).1 = t)) as [<-|Hne].
      * rewrite lookup_insert_eq. intros [= <-].
        split; [apply (SecretsFacts.token_hex_length 16)|].
        split; [apply SecretsFacts.token_hex_all_hex|].
        apply mock_login_true in Hm. apply Hm.
      * rewrite lookup_insert_ne by exact Hne. apply Hinv.
    + rewrite (login_rejects st rq d Hd Hm). exact Hinv.
  - rewrite portfolio_state. exact Hinv.
Qed.

Lemma serve_size (st : server) (r : http_request) :
  (size (SESSIONS (serve st r).1)
   <= size (SESSIONS st)
      + match r with POST_api_login _ => 1 | GET_api_portfolio _ => 0 end)%nat.
Proof.
  destruct r as [rq|rq]; cbn [serve].
  - destruct (TraceFacts.login_cases st rq) as [(H & _) | (u & Hs & _)].
    + rewrite H. lia.
    + rewrite Hs.
      destruct (SESSIONS st !! (Secrets.token_hex 16 (urandom st)).1) eqn:E.
      * rewrite map_size_insert_Some by eauto. lia.
      * rewrite map_size_insert_None by exact E. lia.
  - rewrite portfolio_state. lia.
Qed.

(** Invariant of a process served from its start: every key of the session
    map is a string of 32 hexadecimal digits, every value is a true value
    (no session belongs to an empty username), and the map holds at most one
    entry per login request received. *)
Theorem session_map_invariant (src : Secrets.entropy) (trace : list http_request) :
  (forall t u, SESSIONS (run (start src) trace).1 !! t = Some u ->
     String.length t = 32%nat /\ Secrets.all_hex t = true /\ truthy u = true)
  /\ (size (SESSIONS (run (start src) trace).1)
      <= length (List.filter
                   (fun r => match r with POST_api_login _ => true | _ => false end)
                   trace))%nat.
Proof.
  assert (Hshape : forall tr st,
            (forall t u, SESSIONS st !! t = Some u ->
               String.length t = 32%nat /\ Secrets.all_hex t = true /\ truthy u = true) ->
            forall t u, SESSIONS (run st tr).1 !! t = Some u ->
               String.length t = 32%nat /\ Secrets.all_hex t = true /\ truthy u = true).
  { induction tr as [|r tr IH]; intros st Hinv; [exact Hinv|].
    rewrite TraceFacts.run_cons. cbn [fst]. apply IH, serve_keeps_shape, Hinv. }
  assert (Hsize : forall tr st,
            (size (SESSIONS (run st tr).1)
             <= size (SESSIONS st)
                + length (List.filter
                            (fun r => match r with POST_api_login _ => true | _ => false end)
                            tr))%nat).
  { induction tr as [|r tr IH]; intros st; [cbn; lia|].
    rewrite TraceFacts.run_cons. cbn [fst List.filter].
    pose proof (IH (serve st r).1) as H1. pose proof (serve_size st r) as H2.
    destruct r; cbn [length]; lia. }
  split.
  - apply Hshape. intros t u. cbn [start SESSIONS]. rewrite lookup_empty. discriminate.
  - pose proof (Hsize trace (start src)) as H. cbn [start SESSIONS] in H.
    rewrite map_size_empty in H. exact H.
Qed.

End InvariantFacts.

(** ** The driver on status 200 *)

Module CliFacts.
Import Cli.

(** On status 200 [login] exits 0 exactly when the body is a JSON object,
    token or no token: an object without a ["token"] key makes it print an
    empty line and still exit 0.  A body that is not JSON, or JSON that is
    not an object, ends the command with an exception that nothing catches.
    [portfolio] exits 0 exactly when the body is JSON of any kind. *)
Theorem cli_on_status_200
    (json_loads : string -> option json) (json_dumps : json -> nat -> string)
    (py_str : json -> string) (resp : http_response) :
  status_code resp = 200%Z ->
  (exit_code (login_report json_loads py_str resp) = 0%Z
     <-> exists d, json_loads (text resp) = Some (JObj d))
  /\ (forall d, json_loads (text resp) = Some (JObj d) ->
        d !! "token" = None \/ d !! "token" = Some JNull ->
        login_report json_loads py_str resp = Exit0 newline)
  /\ (json_loads (text resp) = None ->
      login_report json_loads py_str resp = Uncaught JSONDecodeError
      /\ portfolio_report json_loads json_dumps resp = Uncaught JSONDecodeError)
  /\ (forall v, json_loads (text resp) = Some v -> (forall d, v <> JObj d) ->
        login_report json_loads py_str resp = Uncaught AttributeError)
  /\ (exit_code (portfolio_report json_loads json_dumps resp) = 0%Z
        <-> exists v, json_loads (text resp) = Some v).
Proof.
  intros H200.
  rewrite (CliClaims.login_report_200 json_loads py_str resp H200),
          (CliClaims.portfolio_report_200 json_loads json_dumps resp H200).
  destruct (json_loads (text resp)) as [v|].
  - split; [|split; [|split; [|split]]].
    + destruct v; cbn; split; try discriminate; try (intros [d [=]]); eauto.
    + intros d [= ->] [-> | ->]; reflexivity.
    + discriminate.
    + intros v' [= <-] Hv. destruct v; try reflexivity. destruct (Hv _ eq_refl).
    + split; [eauto | reflexivity].
  - split; [|split; [|split; [|split]]].
    + cbn. split; [discriminate | intros [d [=]]].
    + discriminate.
    + split; reflexivity.
    + discriminate.
    + cbn. split; [discriminate | intros [v [=]]].
Qed.

Lemma cli_on_status_200_witness :
  login_report (fun _ => Some (JObj ∅)) (fun _ => "")
    {| status_code := 200; text := "{}" |}
  = Exit0 newline.
Proof.
  apply (proj1 (proj2 (cli_on_status_200 (fun _ => Some (JObj ∅)) (fun _ _ => "")
                         (fun _ => "") {| status_code := 200; text := "{}" |} eq_refl))
           ∅ eq_refl).
  left. reflexivity.
Defined.

End CliFacts.
